(** * Flames CRM backend: the request handlers of [main.py] and the entity
    schemas of [schemas.py], embedded over a model of the document store. *)

From Stdlib Require Import ZArith NArith List Ascii String Bool Lia Sorted.
From Stdlib Require Import Floats.SpecFloat.
From stdpp Require Import base option list gmap strings.

Local Open Scope string_scope.
Local Open Scope list_scope.
Local Open Scope Z_scope.

(** ** Python numbers

    A Python [float] is an IEEE 754 binary64 value; the arithmetic below is
    the Standard Library's specification of it.  A Python [int] is an
    unbounded integer. *)

Module Float.

Definition prec : Z := 53.
Definition emax : Z := 1024.

Definition mul : spec_float -> spec_float -> spec_float := SFmul prec emax.
Definition add : spec_float -> spec_float -> spec_float := SFadd prec emax.
Definition div : spec_float -> spec_float -> spec_float := SFdiv prec emax.

(** [float(n)] for an [int]: the nearest double, ties to even (CPython raises
    OverflowError where this yields an infinity, beyond 2^1024). *)
Definition of_int (n : Z) : spec_float := binary_normalize prec emax n 0 false.

(** [a / b] on two [int]s with [b <> 0]: the correctly rounded quotient. *)
Definition int_truediv (a b : Z) : spec_float :=
  match a, b with
  | Z0, _ => S754_zero false
  | _, Z0 => S754_nan
  | Zpos p, Zpos q => div (S754_finite false p 0) (S754_finite false q 0)
  | Zneg p, Zneg q => div (S754_finite false p 0) (S754_finite false q 0)
  | Zpos p, Zneg q => div (S754_finite false p 0) (S754_finite true q 0)
  | Zneg p, Zpos q => div (S754_finite true p 0) (S754_finite false q 0)
  end.

(** The integer nearest to [m * 2^e * 10^k], ties to even. *)
Definition scaled_nearest_even (m : positive) (e : Z) (k : Z) : Z :=
  let num := Zpos m * 10 ^ k in
  if 0 <=? e then num * 2 ^ e
  else
    let den := 2 ^ (- e) in
    let q := num / den in
    let r := num mod den in
    match 2 * r ?= den with
    | Lt => q
    | Gt => q + 1
    | Eq => if Z.even q then q else q + 1
    end.

(** [round(x, ndigits)] on a [float], for [0 <= ndigits]: CPython rounds the
    exact value of [x] to [ndigits] decimal places (ties to even) and returns
    the double nearest to that decimal. *)
Definition round (x : spec_float) (ndigits : Z) : spec_float :=
  match x with
  | S754_finite s m e =>
      match scaled_nearest_even m e ndigits with
      | Zpos n =>
          div (S754_finite s n 0) (of_int (10 ^ ndigits))
      | _ => S754_zero s
      end
  | _ => x
  end.

(** Exact comparison of an integer with a float; [None] on NaN. *)
Definition compare_int (n : Z) (x : spec_float) : option comparison :=
  match x with
  | S754_nan => None
  | S754_zero _ => Some (n ?= 0)
  | S754_infinity s => Some (if s then Gt else Lt)
  | S754_finite s m e =>
      let v := if s then Zneg m else Zpos m in
      Some (if 0 <=? e then n ?= v * 2 ^ e else n * 2 ^ (- e) ?= v)
  end.

End Float.

(** ** Values held in documents and in JSON bodies

    The scalar BSON types that the schemas of the handled entities produce. *)

Definition ObjectId := N.

Inductive Value :=
  | VNull
  | VBool (b : bool)
  | VInt (n : Z)
  | VFloat (x : spec_float)
  | VStr (s : string)
  | VDate (millis : Z)
  | VOid (o : ObjectId).

(** ** Exceptions and results *)

Inductive Exception :=
  | HTTPException (status_code : Z) (detail : string)
  | RequestValidationError (errors : list (string * string))
  | StoreUnavailable
  | OperationFailure
  | WriteError
  | OverflowError
  | TypeError.

(** The status FastAPI answers with when a handler raises. *)
Definition status_of (e : Exception) : Z :=
  match e with
  | HTTPException c _ => c
  | RequestValidationError _ => 422
  | StoreUnavailable | OperationFailure | WriteError | OverflowError
  | TypeError => 500
  end.

Inductive result (A : Type) :=
  | Ok (a : A)
  | Raise (e : Exception).
Arguments Ok {A} a.
Arguments Raise {A} e.

#[global] Instance result_bind : MBind result := fun A B k r =>
  match r with
  | Ok a => k a
  | Raise e => Raise e
  end.

#[global] Instance result_fmap : FMap result := fun A B f r =>
  match r with
  | Ok a => Ok (f a)
  | Raise e => Raise e
  end.

(** ** Arithmetic of the built-ins used by the dashboard *)

(** A document value as a number, as Python's arithmetic takes what the
    driver decodes it to ([bool] is a subclass of [int]); [None] for a value
    that cannot be added to a number. *)
Definition as_number (v : Value) : option (Z + spec_float) :=
  match v with
  | VBool b => Some (inl (if b then 1 else 0))
  | VInt n => Some (inl n)
  | VFloat x => Some (inr x)
  | _ => None
  end.

(** The numbers of a list of document values, if all of them are numbers. *)
Fixpoint numbers (l : list Value) : option (list (Z + spec_float)) :=
  match l with
  | [] => Some []
  | v :: l' => n ← as_number v; ns ← numbers l'; Some (n :: ns)
  end.

(** The integers of a list of numbers, if all of them are integers. *)
Fixpoint integers (ns : list (Z + spec_float)) : option (list Z) :=
  match ns with
  | [] => Some []
  | inl n :: ns' => cons n <$> integers ns'
  | inr _ :: _ => None
  end.

(** The float additions that [sum] does in CPython up to 3.11, from the
    left and each one rounded: [f] is the float reached so far. *)
Fixpoint add_from_left (f : spec_float) (ns : list (Z + spec_float))
    : spec_float :=
  match ns with
  | [] => f
  | inl n :: ns' => add_from_left (Float.add f (Float.of_int n)) ns'
  | inr x :: ns' => add_from_left (Float.add f x) ns'
  end.

(** The same from the start: integers are added exactly up to the first
    float, to which their sum is added as a float. *)
Fixpoint sum_from_left (i : Z) (ns : list (Z + spec_float)) : spec_float :=
  match ns with
  | [] => Float.of_int i
  | inl n :: ns' => sum_from_left (i + n) ns'
  | inr x :: ns' => add_from_left (Float.add (Float.of_int i) x) ns'
  end.

(** [round(x, 2)]: an [int] is returned as it is. *)
Definition py_round2 (v : Value) : Value :=
  match v with
  | VFloat x => VFloat (Float.round x 2)
  | _ => v
  end.


(** ** Identifiers

    [bson.ObjectId]: twelve bytes, written as 24 hexadecimal digits.  An
    identifier of a stored document is the number below [2^96] that its
    twelve bytes spell. *)

Definition hex_digit (c : ascii) : option N :=
  let n := N_of_ascii c in
  if ((48 <=? n) && (n <=? 57))%N then Some (n - 48)%N
  else if ((97 <=? n) && (n <=? 102))%N then Some (n - 87)%N
  else if ((65 <=? n) && (n <=? 70))%N then Some (n - 55)%N
  else None.


(** ASCII whitespace: space, tab, line feed, vertical tab, form feed and
    carriage return. *)
Definition is_space (c : ascii) : bool :=
  let n := N_of_ascii c in
  ((9 <=? n) && (n <=? 13) || (n =? 32))%N.

(** [bytes.fromhex(s)]: one byte for every two hexadecimal digits; ASCII
    whitespace is skipped before a byte and at the end, not between the two
    digits of a byte.  [None] stands for [ValueError]. *)
Fixpoint fromhex (s : string) : option (list N) :=
  match s with
  | EmptyString => Some []
  | String c s' =>
      if is_space c then fromhex s'
      else
        match hex_digit c, s' with
        | Some hi, String c' s'' =>
            match hex_digit c' with
            | Some lo => cons (16 * hi + lo)%N <$> fromhex s''
            | None => None
            end
        | _, _ => None
        end
  end.

Definition bytes_value (bytes : list N) : N :=
  fold_left (fun acc b => (256 * acc + b)%N) bytes 0%N.

(** The identifier that a byte string stands for.  [bytes.fromhex] yields
    fewer than twelve bytes when the 24 characters hold whitespace; such a
    value is the identifier of no stored document, and is kept apart from
    the twelve-byte ones, and from the byte strings of another length, by a
    number from [2^96] on. *)
Definition ObjectId_of_bytes (bytes : list N) : ObjectId :=
  if (length bytes =? 12)%nat then bytes_value bytes
  else (2 ^ 96 * (1 + N.of_nat (length bytes)) + bytes_value bytes)%N.

(** [ObjectId(id_str)] on a [str]: the string must have 24 characters, and
    [bytes.fromhex] must read it; [None] stands for [InvalidId]. *)
Definition ObjectId_of_str (id_str : string) : option ObjectId :=
  if (String.length id_str =? 24)%nat
  then ObjectId_of_bytes <$> fromhex id_str
  else None.

Definition hex_char (d : N) : ascii :=
  if (d <? 10)%N then ascii_of_N (48 + d) else ascii_of_N (87 + d).

Fixpoint hex_digits (k : nat) (n : N) (tail : string) : string :=
  match k with
  | O => tail
  | S k' => hex_digits k' (n / 16)%N (String (hex_char (n mod 16)%N) tail)
  end.

(** [str(oid)] *)
Definition str_of_ObjectId (o : ObjectId) : string := hex_digits 24 o "".

(** ** Text

    A Python [str] is a sequence of characters; here it is the UTF-8 text of
    that sequence, so a character is one byte that opens it and the
    continuation bytes ([10xxxxxx]) that follow. *)

Definition is_continuation (c : ascii) : bool :=
  let n := N_of_ascii c in ((128 <=? n) && (n <? 192))%N.

(** [s[:n]]: the first [n] characters of [s]. *)
Fixpoint str_take (n : nat) (s : string) : string :=
  match s with
  | EmptyString => EmptyString
  | String c s' =>
      if is_continuation c then String c (str_take n s')
      else
        match n with
        | O => EmptyString
        | S n' => String c (str_take n' s')
        end
  end.

(** ** Text matching *)

Definition lower (c : ascii) : ascii :=
  let n := N_of_ascii c in
  if ((65 <=? n) && (n <=? 90))%N then ascii_of_N (n + 32) else c.

Fixpoint lower_str (s : string) : string :=
  match s with
  | EmptyString => EmptyString
  | String c s' => String (lower c) (lower_str s')
  end.

Fixpoint prefix_ci (p s : string) : bool :=
  match p, s with
  | EmptyString, _ => true
  | String a p', String b s' => Ascii.eqb (lower a) (lower b) && prefix_ci p' s'
  | String _ _, EmptyString => false
  end.

(** [p] occurs in [s] when letter case is ignored. *)
Fixpoint contains_ci (p s : string) : bool :=
  prefix_ci p s ||
  match s with
  | EmptyString => false
  | String _ s' => contains_ci p s'
  end.

(** The same as a proposition: some stretch of [s] equals [p] up to case. *)
Definition occurs_ci (p s : string) : Prop :=
  exists pre post, lower_str s = (pre ++ lower_str p ++ post)%string.

(** Characters with a meaning of their own in a regular expression. *)
Definition is_meta (c : ascii) : bool :=
  existsb (Ascii.eqb c)
    ["\"; "^"; "$"; "."; "|"; "?"; "*"; "+"; "("; ")"; "["; "]"; "{"; "}"]%char.

(** A small regular-expression engine, enough to run the handlers on the
    sample data; the theorems on the handlers hold for any engine.  A
    pattern is a sequence of ordinary characters and wildcards [.]; the
    engine rejects a pattern that uses any other operator, and ignores the
    case of ASCII letters only. *)
Module Rx.

Inductive item :=
  | Lit (c : ascii)
  | AnyChar.

Fixpoint parse (p : string) : option (list item) :=
  match p with
  | EmptyString => Some []
  | String c p' =>
      if Ascii.eqb c "." then cons AnyChar <$> parse p'
      else if is_meta c then None
      else cons (Lit c) <$> parse p'
  end.

Definition char_matches (ci : bool) (it : item) (c : ascii) : bool :=
  match it with
  | Lit a => if ci then Ascii.eqb (lower a) (lower c) else Ascii.eqb a c
  | AnyChar => negb (Ascii.eqb c "010")
  end.

Fixpoint match_here (ci : bool) (items : list item) (s : string) : bool :=
  match items, s with
  | [], _ => true
  | it :: items', String c s' => char_matches ci it c && match_here ci items' s'
  | _ :: _, EmptyString => false
  end.

Fixpoint search (ci : bool) (items : list item) (s : string) : bool :=
  match_here ci items s ||
  match s with
  | EmptyString => false
  | String _ s' => search ci items s'
  end.

Definition ignore_case (options : string) : bool :=
  existsb (Ascii.eqb "i") (list_ascii_of_string options).

Definition engine (pattern options : string) : option (string -> bool) :=
  search (ignore_case options) <$> parse pattern.

End Rx.

(** ** Order and equality of stored values

    The order the store sorts and groups by: values of different kinds are
    ordered by kind, numbers by their exact value. *)

Definition kind_rank (v : Value) : Z :=
  match v with
  | VNull => 1
  | VInt _ | VFloat _ => 2
  | VStr _ => 3
  | VOid _ => 7
  | VBool _ => 8
  | VDate _ => 9
  end.

Definition float_compare (x y : spec_float) : comparison :=
  match x, y with
  | S754_nan, S754_nan => Eq
  | S754_nan, _ => Lt
  | _, S754_nan => Gt
  | _, _ => default Eq (SFcompare x y)
  end.

Definition bson_compare (a b : Value) : comparison :=
  match a, b with
  | VNull, VNull => Eq
  | VInt m, VInt n => m ?= n
  | VInt m, VFloat y => default Gt (Float.compare_int m y)
  | VFloat x, VInt n => CompOpp (default Gt (Float.compare_int n x))
  | VFloat x, VFloat y => float_compare x y
  | VStr s, VStr t => String.compare s t
  | VOid o, VOid p => (o ?= p)%N
  | VBool x, VBool y => Bool.compare x y
  | VDate s, VDate t => s ?= t
  | _, _ => kind_rank a ?= kind_rank b
  end.

Definition bson_eqb (a b : Value) : bool :=
  match bson_compare a b with
  | Eq => true
  | _ => false
  end.

(** ** Entity schemas ([schemas.py])

    A request body is given with its fields already typed; [None] is a field
    the body leaves out.  Validation gathers one error per violated
    constraint, as (field, error type) pairs, and yields the model when there
    is none. *)

Abbreviation Doc := (gmap string Value) (only parsing).
Abbreviation Errors := (list (string * string)) (only parsing).

Definition required {A} (f : string) (v : option A) : Errors :=
  match v with
  | None => [(f, "missing")]
  | Some _ => []
  end.

Definition literal (f : string) (allowed : list string) (v : option string)
    : Errors :=
  match v with
  | Some s => if existsb (String.eqb s) allowed then [] else [(f, "literal_error")]
  | None => []
  end.

(** [Field(None, ge=lo, le=hi)] *)
Definition ge_le (f : string) (lo hi : Z) (v : option Z) : Errors :=
  match v with
  | Some n =>
      if n <? lo then [(f, "greater_than_equal")]
      else if hi <? n then [(f, "less_than_equal")]
      else []
  | None => []
  end.

(** [EmailStr]: [validate_email] stands for the check of the
    [email-validator] package, which refuses an address ([None]) or returns
    it in normal form; the model holds the normal form, not the address as
    it was given. *)
Definition email_str (validate_email : string -> option string) (f : string)
    (v : option string) : Errors :=
  match v with
  | Some s =>
      match validate_email s with
      | Some _ => []
      | None => [(f, "value_error")]
      end
  | None => []
  end.

(** A [float] field: a JSON number with a fraction or an exponent is a float
    as it stands, a JSON integer is converted, and refused when it is
    beyond the range of a double. *)
Definition float_ok (v : Z + spec_float) : bool :=
  match v with
  | inl n =>
      match Float.of_int n with
      | S754_zero _ | S754_finite _ _ _ => true
      | _ => false
      end
  | inr _ => true
  end.

Definition float_field (f : string) (v : option (Z + spec_float)) : Errors :=
  match v with
  | Some x => if float_ok x then [] else [(f, "float_type")]
  | None => []
  end.

Definition opt_str (v : option string) : Value :=
  match v with Some s => VStr s | None => VNull end.
Definition opt_int (v : option Z) : Value :=
  match v with Some n => VInt n | None => VNull end.
Definition opt_date (v : option Z) : Value :=
  match v with Some t => VDate t | None => VNull end.

Definition related_types : list string := ["lead"; "contact"; "deal"; "account"].

Module Lead.

Record body := {
  b_name : option string;
  b_email : option string;
  b_phone : option string;
  b_status : option string;
  b_source : option string;
  b_owner_id : option string;
  b_score : option Z;
  b_notes : option string }.

Record t := {
  name : string;
  email : option string;
  phone : option string;
  status : string;
  source : option string;
  owner_id : option string;
  score : option Z;
  notes : option string }.

(** The same body with another [score]. *)
Definition with_score (b : body) (s : option Z) : body :=
  {| b_name := b_name b; b_email := b_email b; b_phone := b_phone b;
     b_status := b_status b; b_source := b_source b;
     b_owner_id := b_owner_id b; b_score := s; b_notes := b_notes b |}.

Definition errors (validate_email : string -> option string) (b : body) : Errors :=
  required "name" (b_name b)
  ++ email_str validate_email "email" (b_email b)
  ++ literal "status" ["new"; "contacted"; "qualified"; "lost"] (b_status b)
  ++ ge_le "score" 0 100 (b_score b).

Definition validate (validate_email : string -> option string) (b : body) : result t :=
  match errors validate_email b, b_name b with
  | [], Some n =>
      Ok {| name := n; email := b_email b ≫= validate_email;
            phone := b_phone b;
            status := default "new" (b_status b); source := b_source b;
            owner_id := b_owner_id b; score := b_score b; notes := b_notes b |}
  | errs, _ => Raise (RequestValidationError errs)
  end.

Definition dump (l : t) : Doc :=
  list_to_map
    [("name", VStr (name l)); ("email", opt_str (email l));
     ("phone", opt_str (phone l)); ("status", VStr (status l));
     ("source", opt_str (source l)); ("owner_id", opt_str (owner_id l));
     ("score", opt_int (score l)); ("notes", opt_str (notes l))].

End Lead.

Module Deal.

Record body := {
  b_title : option string;
  b_account_id : option string;
  b_contact_id : option string;
  b_value : option (Z + spec_float);
  b_close_date : option Z;
  b_stage : option string;
  b_probability : option Z;
  b_lost_reason : option string;
  b_owner_id : option string }.

Record t := {
  title : string;
  account_id : option string;
  contact_id : option string;
  value : spec_float;
  close_date : option Z;
  stage : string;
  probability : option Z;
  lost_reason : option string;
  owner_id : option string }.

(** The same body with another [value]. *)
Definition with_value (b : body) (v : option (Z + spec_float)) : body :=
  {| b_title := b_title b; b_account_id := b_account_id b;
     b_contact_id := b_contact_id b; b_value := v;
     b_close_date := b_close_date b; b_stage := b_stage b;
     b_probability := b_probability b; b_lost_reason := b_lost_reason b;
     b_owner_id := b_owner_id b |}.

Definition errors (b : body) : Errors :=
  required "title" (b_title b)
  ++ float_field "value" (b_value b)
  ++ ge_le "probability" 0 100 (b_probability b).

(** [value: float = 0.0]: the float that a body passing [errors] holds. *)
Definition value_of (v : option (Z + spec_float)) : spec_float :=
  match v with
  | Some (inl n) => Float.of_int n
  | Some (inr x) => x
  | None => S754_zero false
  end.

Definition validate (b : body) : result t :=
  match errors b, b_title b with
  | [], Some s =>
      Ok {| title := s; account_id := b_account_id b;
            contact_id := b_contact_id b; value := value_of (b_value b);
            close_date := b_close_date b;
            stage := default "prospecting" (b_stage b);
            probability := b_probability b; lost_reason := b_lost_reason b;
            owner_id := b_owner_id b |}
  | errs, _ => Raise (RequestValidationError errs)
  end.

Definition dump (d : t) : Doc :=
  list_to_map
    [("title", VStr (title d)); ("account_id", opt_str (account_id d));
     ("contact_id", opt_str (contact_id d)); ("value", VFloat (value d));
     ("close_date", opt_date (close_date d)); ("stage", VStr (stage d));
     ("probability", opt_int (probability d));
     ("lost_reason", opt_str (lost_reason d));
     ("owner_id", opt_str (owner_id d))].

End Deal.

Module Task.

Record body := {
  b_type : option string;
  b_title : option string;
  b_due_date : option Z;
  b_priority : option string;
  b_owner_id : option string;
  b_related_type : option string;
  b_related_id : option string;
  b_notes : option string;
  b_completed : option bool }.

Record t := {
  type : string;
  title : string;
  due_date : option Z;
  priority : string;
  owner_id : option string;
  related_type : option string;
  related_id : option string;
  notes : option string;
  completed : bool }.

Definition errors (b : body) : Errors :=
  literal "type" ["call"; "meeting"; "follow-up"; "email"] (b_type b)
  ++ required "title" (b_title b)
  ++ literal "priority" ["low"; "medium"; "high"] (b_priority b)
  ++ literal "related_type" related_types (b_related_type b).

Definition validate (b : body) : result t :=
  match errors b, b_title b with
  | [], Some s =>
      Ok {| type := default "follow-up" (b_type b); title := s;
            due_date := b_due_date b;
            priority := default "medium" (b_priority b);
            owner_id := b_owner_id b; related_type := b_related_type b;
            related_id := b_related_id b; notes := b_notes b;
            completed := default false (b_completed b) |}
  | errs, _ => Raise (RequestValidationError errs)
  end.

Definition dump (x : t) : Doc :=
  list_to_map
    [("type", VStr (type x)); ("title", VStr (title x));
     ("due_date", opt_date (due_date x)); ("priority", VStr (priority x));
     ("owner_id", opt_str (owner_id x));
     ("related_type", opt_str (related_type x));
     ("related_id", opt_str (related_id x)); ("notes", opt_str (notes x));
     ("completed", VBool (completed x))].

End Task.

Module Activity.

Record body := {
  b_subject : option string;
  b_type : option string;
  b_user_id : option string;
  b_related_type : option string;
  b_related_id : option string;
  b_details : option string }.

Record t := {
  subject : string;
  type : string;
  user_id : option string;
  related_type : option string;
  related_id : option string;
  details : option string }.

Definition errors (b : body) : Errors :=
  required "subject" (b_subject b)
  ++ literal "type" ["note"; "call"; "email"; "meeting"; "status-change"] (b_type b)
  ++ literal "related_type" related_types (b_related_type b).

Definition validate (b : body) : result t :=
  match errors b, b_subject b with
  | [], Some s =>
      Ok {| subject := s; type := default "note" (b_type b);
            user_id := b_user_id b; related_type := b_related_type b;
            related_id := b_related_id b; details := b_details b |}
  | errs, _ => Raise (RequestValidationError errs)
  end.

Definition dump (x : t) : Doc :=
  list_to_map
    [("subject", VStr (subject x)); ("type", VStr (type x));
     ("user_id", opt_str (user_id x));
     ("related_type", opt_str (related_type x));
     ("related_id", opt_str (related_id x));
     ("details", opt_str (details x))].

End Activity.

Module User.

Record body := {
  b_name : option string;
  b_email : option string;
  b_role : option string;
  b_team : option string;
  b_is_active : option bool }.

Record t := {
  name : string;
  email : string;
  role : string;
  team : option string;
  is_active : bool }.

Definition errors (validate_email : string -> option string) (b : body) : Errors :=
  required "name" (b_name b)
  ++ required "email" (b_email b)
  ++ email_str validate_email "email" (b_email b)
  ++ literal "role" ["admin"; "manager"; "rep"] (b_role b).

Definition validate (validate_email : string -> option string) (b : body) : result t :=
  match errors validate_email b, b_name b, b_email b ≫= validate_email with
  | [], Some n, Some e =>
      Ok {| name := n; email := e; role := default "rep" (b_role b);
            team := b_team b; is_active := default true (b_is_active b) |}
  | errs, _, _ => Raise (RequestValidationError errs)
  end.

End User.

Module Account.

Record body := {
  b_name : option string;
  b_industry : option string;
  b_size : option string;
  b_region : option string;
  b_tags : option (list string) }.

Record t := {
  name : string;
  industry : option string;
  size : option string;
  region : option string;
  tags : list string }.

Definition errors (b : body) : Errors := required "name" (b_name b).

Definition validate (b : body) : result t :=
  match errors b, b_name b with
  | [], Some n =>
      Ok {| name := n; industry := b_industry b; size := b_size b;
            region := b_region b; tags := default [] (b_tags b) |}
  | errs, _ => Raise (RequestValidationError errs)
  end.

End Account.

Module Contact.

Record body := {
  b_first_name : option string;
  b_last_name : option string;
  b_email : option string;
  b_phone : option string;
  b_account_id : option string;
  b_title : option string;
  b_tags : option (list string) }.

Record t := {
  first_name : string;
  last_name : option string;
  email : option string;
  phone : option string;
  account_id : option string;
  title : option string;
  tags : list string }.

Definition errors (validate_email : string -> option string) (b : body) : Errors :=
  required "first_name" (b_first_name b)
  ++ email_str validate_email "email" (b_email b).

Definition validate (validate_email : string -> option string) (b : body) : result t :=
  match errors validate_email b, b_first_name b with
  | [], Some n =>
      Ok {| first_name := n; last_name := b_last_name b;
            email := b_email b ≫= validate_email;
            phone := b_phone b; account_id := b_account_id b;
            title := b_title b; tags := default [] (b_tags b) |}
  | errs, _ => Raise (RequestValidationError errs)
  end.

End Contact.

Module Product.

Record body := {
  b_title : option string;
  b_description : option string;
  b_price : option (Z + spec_float);
  b_category : option string;
  b_in_stock : option bool }.

Record t := {
  title : string;
  description : option string;
  price : spec_float;
  category : string;
  in_stock : bool }.

Definition errors (b : body) : Errors :=
  required "title" (b_title b)
  ++ required "price" (b_price b)
  ++ float_field "price" (b_price b)
  ++ required "category" (b_category b).

Definition validate (b : body) : result t :=
  match errors b, b_title b, b_price b, b_category b with
  | [], Some s, Some p, Some c =>
      Ok {| title := s; description := b_description b;
            price := Deal.value_of (Some p); category := c;
            in_stock := default true (b_in_stock b) |}
  | errs, _, _, _ => Raise (RequestValidationError errs)
  end.

End Product.

(** ** Which constraints a body meets *)

Definition given {A} (v : option A) : bool :=
  match v with
  | Some _ => true
  | None => false
  end.

Definition literal_ok (allowed : list string) (v : option string) : bool :=
  match v with
  | Some s => existsb (String.eqb s) allowed
  | None => true
  end.

Definition range_ok (lo hi : Z) (v : option Z) : bool :=
  match v with
  | Some n => (lo <=? n) && (n <=? hi)
  | None => true
  end.

Definition float_field_ok (v : option (Z + spec_float)) : bool :=
  match v with
  | Some x => float_ok x
  | None => true
  end.

Definition email_field_ok (validate_email : string -> option string) (v : option string) : bool :=
  match v with
  | Some s => bool_decide (is_Some (validate_email s))
  | None => true
  end.

(** The field name when the constraint on it is violated. *)
Definition unless (ok : bool) (f : string) : list string :=
  if ok then [] else [f].

(** ** The document store

    A document is a finite map from field names to values, kept with its
    identifier; a collection lists its documents in the store's natural
    order; a database maps collection names to collections.  Field names are
    top-level names. *)

Definition Collection : Type := list (ObjectId * Doc).
Abbreviation Database := (gmap string Collection) (only parsing).

(** The module-level [db] of [database.py]: [None] when not configured. *)
Abbreviation Store := (option Database) (only parsing).

(** The filter documents the handlers build. *)
Inductive Cond :=
  | Equals (v : string)
  | In_ (vs : list string)
  | Regex (pattern options : string).

Inductive Clause :=
  | Field (name : string) (c : Cond)
  | Or_ (alternatives : list (string * Cond))
  | IdIs (o : ObjectId).

Definition Filter : Type := list Clause.

Definition collection (d : Database) (name : string) : Collection :=
  default [] (d !! name).

Definition field_or_null (f : string) (doc : Doc) : Value :=
  default VNull (doc !! f).

(** The ratio in exact arithmetic: 100 * q / t in hundredths, rounded to the
    nearest integer, ties to even. *)
Definition exact_rate_hundredths (q t : Z) : Z :=
  let n := 10000 * q / t in
  let r := 10000 * q mod t in
  match 2 * r ?= t with
  | Lt => n
  | Gt => n + 1
  | Eq => if Z.even n then n else n + 1
  end.

(** The double nearest to [num / den], ties to even, for a quotient in the
    range of the normal doubles: the mantissa of 53 binary digits and the
    exponent that goes with it, found by integer division. *)
Definition nearest_double (num den : positive) : spec_float :=
  let e0 := Zpos (digits2_pos num) - Zpos (digits2_pos den) - 53 in
  let scaled e :=
    if e <=? 0 then (Zpos num * 2 ^ (- e), Zpos den)
    else (Zpos num, Zpos den * 2 ^ e) in
  let e :=
    if 2 ^ 53 <=? fst (scaled e0) / snd (scaled e0) then e0 + 1 else e0 in
  let q := fst (scaled e) / snd (scaled e) in
  let r := fst (scaled e) mod snd (scaled e) in
  let m :=
    match 2 * r ?= snd (scaled e) with
    | Lt => q
    | Gt => q + 1
    | Eq => if Z.even q then q else q + 1
    end in
  if m =? 2 ^ 53 then S754_finite false (Z.to_pos (2 ^ 52)) (e + 1)
  else S754_finite false (Z.to_pos m) e.


(** The double nearest to [n / 100], for [0 <= n]: the float that Python
    writes as the decimal with two places. *)
Definition hundredths (n : Z) : spec_float :=
  match n with
  | Zpos p => nearest_double p 100
  | _ => S754_zero false
  end.


Definition magnitude (ns : list Z) : Z :=
  foldr (fun n acc => Z.abs n + acc) 0 ns.


Definition same_float (x y : spec_float) : bool :=
  match x, y with
  | S754_zero s, S754_zero s' => Bool.eqb s s'
  | S754_infinity s, S754_infinity s' => Bool.eqb s s'
  | S754_nan, S754_nan => true
  | S754_finite s m e, S754_finite s' m' e' =>
      Bool.eqb s s' && (m =? m')%positive && (e =? e')
  | _, _ => false
  end.

Definition upto (n : nat) : list Z := map Z.of_nat (seq 0 (S n)).

(** ** Sample data *)

Definition doc_of (fields : list (string * Value)) : Doc := list_to_map fields.

(** The store of the dashboard example of the specification. *)
Definition example_db : Database :=
  list_to_map
    [("lead", [(1%N, doc_of [("status", VStr "qualified")]);
               (2%N, doc_of [("status", VStr "new")])]);
     ("deal", [(1%N, doc_of [("stage", VStr "won"); ("value", VInt 100)]);
               (2%N, doc_of [("stage", VStr "prospecting"); ("value", VInt 50)])])].

Definition lead_body (name : string) (score : option Z) : Lead.body :=
  {| Lead.b_name := Some name; Lead.b_email := None; Lead.b_phone := None;
     Lead.b_status := None; Lead.b_source := None; Lead.b_owner_id := None;
     Lead.b_score := score; Lead.b_notes := None |}.

Definition bob : Doc :=
  doc_of [("name", VStr "Bob"); ("email", VNull); ("phone", VNull);
          ("status", VStr "new"); ("source", VNull); ("owner_id", VNull);
          ("score", VInt 10); ("notes", VNull)].

Definition bob_db : Database := list_to_map [("lead", [(1%N, bob)])].

Definition refund : Deal.body :=
  {| Deal.b_title := Some "Refund"; Deal.b_account_id := None;
     Deal.b_contact_id := None; Deal.b_value := Some (inl (-5));
     Deal.b_close_date := None; Deal.b_stage := None;
     Deal.b_probability := None; Deal.b_lost_reason := None;
     Deal.b_owner_id := None |}.

Definition activity_db : Database :=
  list_to_map
    [("activity",
      [(1%N, doc_of [("subject", VStr "Call"); ("created_at", VDate 10)]);
       (2%N, doc_of [("subject", VStr "Mail"); ("created_at", VDate 30)]);
       (3%N, doc_of [("subject", VStr "Note"); ("created_at", VDate 20);
                     ("details", VStr "x")])])].


(** A store of 160 leads, of which 23 are qualified. *)
Definition leads_160 : Database :=
  list_to_map
    [("lead",
      map (fun i : nat =>
             (N.of_nat (S i),
              doc_of [("name", VStr "Lead");
                      ("status",
                       VStr (if (i <? 23)%nat then "qualified" else "new"))]))
          (seq 0 160))].

Section Handlers.

(** The store's regular-expression engine: [regex pattern options] is [None]
    when the pattern does not compile, else the unanchored search it
    performs on a string. *)
Variable regex : string -> string -> option (string -> bool).

(** The check of pydantic's [EmailStr]: [None] when the address is refused,
    else its normal form. *)
Variable validate_email : string -> option string.

(** The interpreter's float summation: the float that [sum] returns for
    numbers of which one at least is a float. *)
Variable float_sum : list (Z + spec_float) -> spec_float.

Set Default Proof Using "Type".

(** [sum(l)], which starts at the [int] 0 and adds the items from the left.
    An item that is not a number makes the addition raise [TypeError].  On
    integers the sum is exact.  Once an item is a float the result is a
    float, and how the additions are rounded depends on the interpreter:
    CPython up to 3.11 rounds after every addition, CPython from 3.12 on
    also carries a correction term for these roundings; [float_sum] is what
    the interpreter at hand returns. *)
Definition py_sum (l : list Value) : result Value :=
  match numbers l with
  | Some ns =>
      match integers ns with
      | Some zs => Ok (VInt (foldr Z.add 0 zs))
      | None => Ok (VFloat (float_sum ns))
      end
  | None => Raise TypeError
  end.


Definition compile_cond (c : Cond) : result (option Value -> bool) :=
  match c with
  | Equals s =>
      Ok (fun v => match v with Some (VStr t) => String.eqb t s | _ => false end)
  | In_ l =>
      Ok (fun v => match v with
                   | Some (VStr t) => existsb (String.eqb t) l
                   | _ => false
                   end)
  | Regex p o =>
      match regex p o with
      | Some search =>
          Ok (fun v => match v with Some (VStr t) => search t | _ => false end)
      | None => Raise OperationFailure
      end
  end.

Fixpoint compile_alternatives (alts : list (string * Cond))
    : result (Doc -> bool) :=
  match alts with
  | [] => Ok (fun _ => false)
  | (f, c) :: rest =>
      p ← compile_cond c;
      q ← compile_alternatives rest;
      Ok (fun doc : Doc => p (doc !! f) || q doc)
  end.

Definition compile_clause (cl : Clause) : result (ObjectId * Doc -> bool) :=
  match cl with
  | Field f c => p ← compile_cond c; Ok (fun d : ObjectId * Doc => p (d.2 !! f))
  | Or_ alts => p ← compile_alternatives alts; Ok (fun d : ObjectId * Doc => p d.2)
  | IdIs o => Ok (fun d : ObjectId * Doc => (d.1 =? o)%N)
  end.

Fixpoint compile_filter (q : Filter) : result (ObjectId * Doc -> bool) :=
  match q with
  | [] => Ok (fun _ => true)
  | cl :: rest =>
      p ← compile_clause cl;
      r ← compile_filter rest;
      Ok (fun d => p d && r d)
  end.

(** [collection.find(query)] *)
Definition find (c : Collection) (q : Filter) : result Collection :=
  p ← compile_filter q; Ok (List.filter p c).

(** [collection.count_documents(query)] *)
Definition count_documents (c : Collection) (q : Filter) : result Z :=
  docs ← find c q; Ok (Z.of_nat (length docs)).

(** What the driver can encode of an update map: an [int] goes into eight
    bytes, and one beyond them makes [update_one] raise [OverflowError]
    before anything is sent to the store. *)
Definition int64_ok (v : Value) : bool :=
  match v with
  | VInt n => (- 2 ^ 63 <=? n) && (n <? 2 ^ 63)
  | _ => true
  end.

Definition encodable (data : Doc) : bool :=
  bool_decide (map_Forall (fun _ v => int64_ok v = true) data).

(** [{"$set": data}] on one document.  The identifier of a document cannot
    change: the store refuses a map that gives [_id] another value than the
    document has, and writes nothing. *)
Definition set_fields (data : Doc) (d : ObjectId * Doc)
    : result (ObjectId * Doc) :=
  match data !! "_id" with
  | None => Ok (d.1, data ∪ d.2)
  | Some v =>
      if bson_eqb v (VOid d.1) then Ok (d.1, delete "_id" data ∪ d.2)
      else Raise WriteError
  end.

(** [{"$set": data}] on the first document the predicate selects; the second
    component is [matched_count]. *)
Fixpoint set_first (p : ObjectId * Doc -> bool) (data : Doc) (c : Collection)
    : result (Collection * Z) :=
  match c with
  | [] => Ok ([], 0)
  | d :: rest =>
      if p d then d' ← set_fields data d; Ok (d' :: rest, 1)
      else r ← set_first p data rest; Ok (d :: r.1, r.2)
  end.

(** [db[name].update_one(query, {"$set": data})] *)
Definition update_one (d : Database) (name : string) (q : Filter) (data : Doc)
    : result (Database * Z) :=
  p ← compile_filter q;
  if encodable data then
    r ← set_first p data (collection d name);
    Ok (if r.2 =? 0 then d else <[name := r.1]> d, r.2)
  else Raise OverflowError.



(** The [$group] stage [{"_id": "$stage", "count": {"$sum": 1}}] followed by
    the [$project] stage that renames [_id] to [stage]. *)
Record StageCount := { stage : Value; count : Z }.

Fixpoint bump (k : Value) (groups : list StageCount) : list StageCount :=
  match groups with
  | [] => [{| stage := k; count := 1 |}]
  | g :: rest =>
      if bson_eqb (stage g) k
      then {| stage := stage g; count := count g + 1 |} :: rest
      else g :: bump k rest
  end.

Definition group_by_stage (c : Collection) : list StageCount :=
  fold_left (fun groups d => bump (field_or_null "stage" d.2) groups) c [].

(** [.sort(field, -1)]: descending, documents with equal keys keep their
    order. *)
Fixpoint insert_desc (f : string) (d : ObjectId * Doc) (l : Collection)
    : Collection :=
  match l with
  | [] => [d]
  | e :: rest =>
      match bson_compare (field_or_null f d.2) (field_or_null f e.2) with
      | Lt => e :: insert_desc f d rest
      | _ => d :: e :: rest
      end
  end.

Definition sort_desc (f : string) (c : Collection) : Collection :=
  foldr (insert_desc f) [] c.

(** A projection that keeps the listed fields, and [_id]. *)
Definition project (fields : list string) (d : ObjectId * Doc) : Doc :=
  <["_id" := VOid d.1]>
    (filter (fun kv : string * Value => bool_decide (kv.1 ∈ fields)) d.2).

(** ** The store gateway ([database.py]) *)

Definition new_ObjectId (c : Collection) : ObjectId :=
  N.succ (foldr (fun d m => N.max d.1 m) 0%N c).

(** Modelled from the spec: [create_document] of [database.py], which is not
    among the sources.  It serializes the entity to a document, assigns it a
    new unique identifier, persists it and returns the identifier as a
    string; it fails when the store is not configured. *)
Definition create_document (db : Store) (collection_name : string) (data : Doc)
    : Store * result string :=
  match db with
  | None => (db, Raise StoreUnavailable)
  | Some d =>
      let c := collection d collection_name in
      let o := new_ObjectId c in
      (Some (<[collection_name := c ++ [(o, data)]]> d), Ok (str_of_ObjectId o))
  end.

Definition with_id_string (d : ObjectId * Doc) : Doc :=
  <["_id" := VStr (str_of_ObjectId d.1)]> d.2.

(** Modelled from the spec: [get_documents] of [database.py], which is not
    among the sources.  It executes the filter query and returns up to
    [limit] matching documents with identifiers rendered as strings; it fails
    when the store is not configured. *)
Definition get_documents (db : Store) (collection_name : string)
    (filter_dict : Filter) (limit : Z) : result (list Doc) :=
  match db with
  | None => Raise StoreUnavailable
  | Some d =>
      docs ← find (collection d collection_name) filter_dict;
      Ok (map with_id_string (take (Z.to_nat limit) docs))
  end.

(** ** The handlers ([main.py]) *)

Definition to_object_id (id_str : string) : result ObjectId :=
  match ObjectId_of_str id_str with
  | Some o => Ok o
  | None => Raise (HTTPException 400 "Invalid id")
  end.

(** Truth value of a [str]. *)
Definition py_bool (s : string) : bool :=
  match s with
  | EmptyString => false
  | String _ _ => true
  end.

(** [if param: query[key] = clause], for an [Optional[str]] parameter. *)
Definition add_if (param : option string) (cl : string -> Clause) (query : Filter)
    : Filter :=
  match param with
  | Some s => if py_bool s then query ++ [cl s] else query
  | None => query
  end.

Record Cards := {
  totalLeads : Z;
  totalDeals : Z;
  revenue : Value;
  conversionRate : Value }.

Record Dashboard := {
  cards : Cards;
  pipeline : list StageCount;
  recentActivities : list Doc }.

Definition dashboard_snapshot (db : Store) (team owner_id : option string)
    : result Dashboard :=
  match db with
  | None => Raise (HTTPException 500 "Database not configured")
  | Some d =>
      let count_ name query := count_documents (collection d name) query in
      total_leads ← count_ "lead" [];
      total_deals ← count_ "deal" [];
      won ← find (collection d "deal") [Field "stage" (In_ ["won"; "closed-won"])];
      total_revenue ←
        py_sum (map (fun x : ObjectId * Doc => default (VInt 0) (x.2 !! "value")) won);
      qualified ← count_ "lead" [Field "status" (Equals "qualified")];
      let conversion_rate :=
        if total_leads =? 0 then VInt 0
        else VFloat (Float.mul (Float.int_truediv qualified total_leads)
                               (Float.of_int 100)) in
      let stages := group_by_stage (collection d "deal") in
      activities ← find (collection d "activity") [];
      let recent_activities :=
        map (project ["subject"; "type"; "created_at"])
            (take 10 (sort_desc "created_at" activities)) in
      Ok {| cards := {| totalLeads := total_leads;
                        totalDeals := total_deals;
                        revenue := total_revenue;
                        conversionRate := py_round2 conversion_rate |};
            pipeline := stages;
            recentActivities := recent_activities |}
  end.

(** What a create handler does once FastAPI has validated the body. *)
Definition created (r : Store * result string) : Store * result Doc :=
  (r.1, new_id ← r.2; Ok {["_id" := VStr new_id]}).

Definition create_lead (db : Store) (payload : Lead.body) : Store * result Doc :=
  match Lead.validate validate_email payload with
  | Ok lead => created (create_document db "lead" (Lead.dump lead))
  | Raise e => (db, Raise e)
  end.

Definition list_leads (db : Store) (status q : option string) (limit : Z)
    : result (list Doc) :=
  let query := [] in
  let query := add_if status (fun s => Field "status" (Equals s)) query in
  let query :=
    add_if q (fun q => Or_ [("name", Regex q "i");
                            ("email", Regex q "i");
                            ("phone", Regex q "i")]) query in
  get_documents db "lead" query limit.

(** The body shared by the three update handlers. *)
Definition update_by_id (db : Store) (name detail id_str : string) (data : Doc)
    : Store * result Doc :=
  match db with
  | None => (db, Raise (HTTPException 500 "Database not configured"))
  | Some d =>
      match o ← to_object_id id_str; update_one d name [IdIs o] data with
      | Raise e => (db, Raise e)
      | Ok (d', matched_count) =>
          (Some d',
           if matched_count =? 0 then Raise (HTTPException 404 detail)
           else Ok {["updated" := VBool true]})
      end
  end.

Definition update_lead (db : Store) (lead_id : string) (data : Doc) :=
  update_by_id db "lead" "Lead not found" lead_id data.

Definition create_deal (db : Store) (payload : Deal.body) : Store * result Doc :=
  match Deal.validate payload with
  | Ok deal => created (create_document db "deal" (Deal.dump deal))
  | Raise e => (db, Raise e)
  end.

Definition list_deals (db : Store) (stage q : option string) (limit : Z)
    : result (list Doc) :=
  let query := [] in
  let query := add_if stage (fun s => Field "stage" (Equals s)) query in
  let query := add_if q (fun q => Field "title" (Regex q "i")) query in
  get_documents db "deal" query limit.

Definition update_deal (db : Store) (deal_id : string) (data : Doc) :=
  update_by_id db "deal" "Deal not found" deal_id data.

Definition create_task (db : Store) (payload : Task.body) : Store * result Doc :=
  match Task.validate payload with
  | Ok task => created (create_document db "task" (Task.dump task))
  | Raise e => (db, Raise e)
  end.

Definition list_tasks (db : Store) (owner_id due : option string) (limit : Z)
    : result (list Doc) :=
  let query := [] in
  let query := add_if owner_id (fun s => Field "owner_id" (Equals s)) query in
  get_documents db "task" query limit.

Definition update_task (db : Store) (task_id : string) (data : Doc) :=
  update_by_id db "task" "Task not found" task_id data.

Definition create_activity (db : Store) (payload : Activity.body)
    : Store * result Doc :=
  match Activity.validate payload with
  | Ok act => created (create_document db "activity" (Activity.dump act))
  | Raise e => (db, Raise e)
  end.

Definition list_activities (db : Store) (related_type related_id : option string)
    (limit : Z) : result (list Doc) :=
  let query := [] in
  let query := add_if related_type (fun s => Field "related_type" (Equals s)) query in
  let query := add_if related_id (fun s => Field "related_id" (Equals s)) query in
  get_documents db "activity" query limit.

(** The connectivity diagnostic.  The database handle is given by its name
    and by what [list_collection_names()] does: it returns the names, or
    raises an exception with the given text.  The two environment variables
    are given as [os.getenv] returns them. *)
Inductive Json :=
  | JNone
  | JStr (s : string)
  | JNames (names : list string).

Record Handle := {
  db_name : string;
  list_collection_names : string + list string }.

Definition env_set (v : option string) : bool :=
  match v with
  | Some s => py_bool s
  | None => false
  end.

Definition test_database (db : option Handle)
    (DATABASE_URL DATABASE_NAME : option string) : gmap string Json :=
  let response : gmap string Json :=
    list_to_map
      [("backend", JStr "✅ Running");
       ("database", JStr "❌ Not Available");
       ("database_url", JNone);
       ("database_name", JNone);
       ("connection_status", JStr "Not Connected");
       ("collections", JNames [])] in
  let response :=
    match db with
    | Some h =>
        let response := <["database" := JStr "✅ Available"]> response in
        let response := <["database_url" := JStr "✅ Configured"]> response in
        let response := <["database_name" := JStr (db_name h)]> response in
        let response := <["connection_status" := JStr "Connected"]> response in
        match list_collection_names h with
        | inr collections =>
            let response :=
              <["collections" := JNames (take 10 collections)]> response in
            <["database" := JStr "✅ Connected & Working"]> response
        | inl e =>
            <["database" := JStr ("❌ Error: " ++ str_take 50 e)%string]>
              response
        end
    | None => response
    end in
  let response :=
    <["database_url" :=
        JStr (if env_set DATABASE_URL then "✅ Set" else "❌ Not Set")]> response in
  <["database_name" :=
      JStr (if env_set DATABASE_NAME then "✅ Set" else "❌ Not Set")]> response.

(** ** The dashboard's figures, as the specification words them *)

Definition has_str (f v : string) (doc : Doc) : bool :=
  match doc !! f with
  | Some (VStr t) => String.eqb t v
  | _ => false
  end.

Definition count_where (p : Doc -> bool) (c : Collection) : Z :=
  Z.of_nat (length (List.filter (fun d : ObjectId * Doc => p d.2) c)).

(** qualified / total x 100 (0 if total = 0), rounded to 2 decimal places *)
Definition spec_conversion_rate (qualified total : Z) : Value :=
  if total =? 0 then VInt 0
  else VFloat (Float.round
                 (Float.mul (Float.int_truediv qualified total) (Float.of_int 100)) 2).

Definition is_won (doc : Doc) : bool :=
  has_str "stage" "won" doc || has_str "stage" "closed-won" doc.

(** The [value] fields of the deals won, a missing one counting as 0. *)
Definition won_values (deals : Collection) : list Value :=
  map (fun d : ObjectId * Doc => default (VInt 0) (d.2 !! "value"))
      (List.filter (fun d : ObjectId * Doc => is_won d.2) deals).

(** The snapshot the dashboard returns once the revenue has been summed. *)
Definition snapshot_of (d : Database) (total_revenue : Value) : Dashboard :=
  let leads := collection d "lead" in
  let deals := collection d "deal" in
  {| cards := {| totalLeads := Z.of_nat (length leads);
                 totalDeals := Z.of_nat (length deals);
                 revenue := total_revenue;
                 conversionRate :=
                   spec_conversion_rate
                     (count_where (has_str "status" "qualified") leads)
                     (Z.of_nat (length leads)) |};
     pipeline := group_by_stage deals;
     recentActivities :=
       map (project ["subject"; "type"; "created_at"])
           (take 10 (sort_desc "created_at" (collection d "activity"))) |}.

Definition is_stage (s : string) (g : StageCount) : bool :=
  match stage g with
  | VStr t => String.eqb t s
  | _ => false
  end.

Definition total_count (groups : list StageCount) : Z :=
  foldr (fun g n => count g + n) 0 groups.

(** The update handlers, each with the collection it writes to. *)
Definition update_handlers
    : list (string * (Store → string → Doc → Store * result Doc)) :=
  [("lead", update_lead); ("deal", update_deal); ("task", update_task)].

Definition has_id (o : ObjectId) (c : Collection) : bool :=
  existsb (fun d : ObjectId * Doc => (d.1 =? o)%N) c.


Definition is_ok {A} (r : result A) : bool :=
  match r with
  | Ok _ => true
  | Raise _ => false
  end.

(** What a create handler answers and leaves in the store, given the
    outcome of validating and serializing the body. *)
Definition created_as (name : string) (d : Database) (validated : result Doc)
    (out : Store * result Doc) : Prop :=
  match validated with
  | Ok doc =>
      let c := collection d name in
      let o := new_ObjectId c in
      out = (Some (<[name := c ++ [(o, doc)]]> d),
             Ok {["_id" := VStr (str_of_ObjectId o)]})
      ∧ has_id o c = false
  | Raise e => out = (Some d, Raise e)
  end.

Definition in_range (lo hi n : Z) : bool := (lo <=? n) && (n <=? hi).

Definition is_nil {A} (l : list A) : bool :=
  match l with
  | [] => true
  | _ :: _ => false
  end.

(** A lead passes the filters of a list request as the specification words
    them: the status asked for, and the text found in one of three fields. *)
Definition status_is (status : option string) (doc : Doc) : Prop :=
  match status with
  | Some s => if py_bool s then doc !! "status" = Some (VStr s) else True
  | None => True
  end.

(** The pattern that [search] looks for is found in the text field [f]. *)
Definition pattern_found (search : string → bool) (f : string) (doc : Doc)
    : bool :=
  match doc !! f with
  | Some (VStr t) => search t
  | _ => false
  end.

Definition pattern_occurs (search : string → bool) (f : string) (doc : Doc)
    : Prop :=
  ∃ t, doc !! f = Some (VStr t) ∧ search t = true.

Definition status_ok (status : option string) (doc : Doc) : bool :=
  match status with
  | Some s => if py_bool s then has_str "status" s doc else true
  | None => true
  end.

(** A value Python can add to a number. *)
Definition is_number (v : Value) : bool := given (as_number v).

(** An equality filter taken from an optional parameter. *)
Definition field_ok (f : string) (param : option string) (doc : Doc) : bool :=
  match param with
  | Some s => if py_bool s then has_str f s doc else true
  | None => true
  end.

(** A text filter on one field, taken from an optional parameter. *)
(** A stage that counts towards the revenue. *)
Definition won_stage (s : string) : bool :=
  String.eqb s "won" || String.eqb s "closed-won".

(** The dashboard after one more lead: the totals and the rate move, the
    rest stays. *)
Definition with_lead (qualified_before : Z) (status : string) (dash : Dashboard)
    : Dashboard :=
  {| cards :=
       {| totalLeads := totalLeads (cards dash) + 1;
          totalDeals := totalDeals (cards dash);
          revenue := revenue (cards dash);
          conversionRate :=
            spec_conversion_rate
              (qualified_before + (if String.eqb status "qualified" then 1 else 0))
              (totalLeads (cards dash) + 1) |};
     pipeline := pipeline dash;
     recentActivities := recentActivities dash |}.

(** The dashboard after one more deal of the given stage. *)
Definition with_deal (stage : string) (total_revenue : Value) (dash : Dashboard)
    : Dashboard :=
  {| cards :=
       {| totalLeads := totalLeads (cards dash);
          totalDeals := totalDeals (cards dash) + 1;
          revenue := total_revenue;
          conversionRate := conversionRate (cards dash) |};
     pipeline := bump (VStr stage) (pipeline dash);
     recentActivities := recentActivities dash |}.

(** What a list handler answers: the documents of the collection that pass,
    cut at [limit], each with its identifier as a string. *)
Definition listing (d : Database) (name : string) (passes : Doc → bool)
    (limit : Z) : result (list Doc) :=
  Ok (map with_id_string
        (take (Z.to_nat limit)
           (List.filter (fun x : ObjectId * Doc => passes x.2)
              (collection d name)))).

(** The order of the recent activities: by [created_at], latest first. *)
Definition created_at (x : ObjectId * Doc) : Value :=
  field_or_null "created_at" x.2.

Definition not_older (x y : ObjectId * Doc) : Prop :=
  bson_compare (created_at x) (created_at y) ≠ Lt.

Definition dated (x : ObjectId * Doc) : Prop :=
  ∃ t, x.2 !! "created_at" = Some (VDate t).

Definition activity_fields : list string := ["subject"; "type"; "created_at"].

(** ** Properties *)

Lemma filter_all {A} (l : list A) : List.filter (fun _ => true) l = l.
Proof. induction l as [|x l IH]; simpl; congruence. Qed.

Lemma find_all (c : Collection) : find c [] = Ok c.
Proof. unfold find; simpl. by rewrite filter_all. Qed.

Lemma find_field_equals (c : Collection) (f v : string) :
  find c [Field f (Equals v)]
  = Ok (List.filter (fun d : ObjectId * Doc => has_str f v d.2) c).
Proof.
  unfold find; simpl. f_equal. apply filter_ext. intros [o doc]; simpl.
  unfold has_str. rewrite andb_true_r. reflexivity.
Qed.

Lemma find_won (c : Collection) :
  find c [Field "stage" (In_ ["won"; "closed-won"])]
  = Ok (List.filter (fun d : ObjectId * Doc => is_won d.2) c).
Proof.
  unfold find; simpl. f_equal. apply filter_ext. intros [o doc]; simpl.
  unfold is_won, has_str. rewrite andb_true_r.
  destruct (doc !! "stage") as [[]|]; simpl; try reflexivity.
  by rewrite orb_false_r.
Qed.

Lemma dashboard_snapshot_eq (d : Database) (team owner_id : option string) :
  dashboard_snapshot (Some d) team owner_id
  = (total_revenue ← py_sum (won_values (collection d "deal"));
     Ok (snapshot_of d total_revenue)).
Proof.
  unfold dashboard_snapshot, count_documents.
  rewrite !find_all, find_won, find_field_equals. simpl.
  fold (won_values (collection d "deal")).
  destruct (py_sum _) as [rev|e]; simpl; [|reflexivity].
  unfold snapshot_of, spec_conversion_rate, count_where. simpl.
  destruct (Z.of_nat (length (collection d "lead")) =? 0); reflexivity.
Qed.

Lemma same_float_eq (x y : spec_float) : same_float x y = true → x = y.
Proof.
  destruct x as [s| | |s m e], y as [s'| | |s' m' e']; simpl; try discriminate.
  - by intros ->%Bool.eqb_prop.
  - by intros ->%Bool.eqb_prop.
  - reflexivity.
  - intros [[->%Bool.eqb_prop ->%Pos.eqb_eq]%andb_true_iff ->%Z.eqb_eq]%andb_true_iff.
    reflexivity.
Qed.

(** Every rate that up to 159 leads can give, computed in doubles and
    compared with the exactly rounded ratio. *)
Lemma conversion_rates_up_to_159 :
  forallb (fun t =>
    forallb (fun q =>
      match spec_conversion_rate q t with
      | VFloat x => same_float x (hundredths (exact_rate_hundredths q t))
      | _ => false
      end) (upto (Z.to_nat t))) (map Z.of_nat (seq 1 159)) = true.
Proof. vm_compute. reflexivity. Qed.

Lemma spec_conversion_rate_exact (q t : Z) :
  0 <= q <= t → 0 < t <= 159 →
  spec_conversion_rate q t = VFloat (hundredths (exact_rate_hundredths q t)).
Proof.
  intros Hq Ht. pose proof conversion_rates_up_to_159 as H.
  rewrite forallb_forall in H. specialize (H t).
  assert (In t (map Z.of_nat (seq 1 159))) as Hin.
  { apply in_map_iff. exists (Z.to_nat t). split; [lia|]. apply in_seq. lia. }
  specialize (H Hin). rewrite forallb_forall in H. specialize (H q).
  assert (In q (upto (Z.to_nat t))) as Hinq.
  { unfold upto. apply in_map_iff. exists (Z.to_nat q). split; [lia|].
    apply in_seq. lia. }
  specialize (H Hinq).
  destruct (spec_conversion_rate q t); try discriminate.
  f_equal. by apply same_float_eq.
Qed.

Lemma count_where_bounds (p : Doc → bool) (c : Collection) :
  0 <= count_where p c <= Z.of_nat (length c).
Proof.
  unfold count_where. split; [lia|].
  apply Nat2Z.inj_le, List.filter_length_le.
Qed.

(** C1 (as amended): the dashboard's conversion rate is 0 when there is no
    lead, and otherwise qualified / total x 100 computed in doubles and
    rounded to two decimal places by [round].  With at most 159 leads that
    is the double nearest to the ratio rounded exactly to two places (ties
    to even); with more leads the division's rounding can put it one
    hundredth off an exact tie. *)
Theorem conversion_rate_rounded_ratio (d : Database) (team owner_id : option string) :
  let total := Z.of_nat (length (collection d "lead")) in
  let qualified :=
    count_where (has_str "status" "qualified") (collection d "lead") in
  match dashboard_snapshot (Some d) team owner_id with
  | Ok dash =>
      (total = 0 → conversionRate (cards dash) = VInt 0)
      ∧ (0 < total <= 159 →
         conversionRate (cards dash)
         = VFloat (hundredths (exact_rate_hundredths qualified total)))
      ∧ (0 < total →
         conversionRate (cards dash)
         = VFloat (Float.round
                     (Float.mul (Float.int_truediv qualified total)
                        (Float.of_int 100)) 2))
  | Raise e => py_sum (won_values (collection d "deal")) = Raise e
  end.
Proof.
  cbv zeta. rewrite dashboard_snapshot_eq.
  destruct (py_sum _) as [rev|e]; simpl; [|reflexivity].
  split; [|split].
  - intros ->. reflexivity.
  - intros Ht. apply spec_conversion_rate_exact; [|exact Ht].
    apply count_where_bounds.
  - intros Ht. unfold spec_conversion_rate.
    destruct (Z.eqb_spec (Z.of_nat (length (collection d "lead"))) 0); [lia|].
    reflexivity.
Qed.






Lemma won_values_skip (l1 l2 : Collection) (x : ObjectId * Doc) :
  is_won x.2 = false → won_values (l1 ++ x :: l2) = won_values (l1 ++ l2).
Proof.
  intros Hx. unfold won_values.
  rewrite !List.filter_app. simpl. by rewrite Hx.
Qed.


Lemma string_compare_refl (s : string) : String.compare s s = Eq.
Proof.
  induction s as [|c s IH]; simpl; [reflexivity|].
  unfold Ascii.compare. by rewrite N.compare_refl.
Qed.

Lemma bson_eqb_str_r (v : Value) (s : string) :
  bson_eqb v (VStr s) = true ↔ v = VStr s.
Proof.
  unfold bson_eqb. split.
  - destruct v; simpl; try discriminate.
    destruct (String.compare s0 s) eqn:E; try discriminate.
    apply String.compare_eq_iff in E. by subst.
  - intros ->; simpl. by rewrite string_compare_refl.
Qed.

Lemma bson_eqb_str_l (v : Value) (s : string) :
  bson_eqb (VStr s) v = true → v = VStr s.
Proof.
  unfold bson_eqb. destruct v; simpl; try discriminate.
  destruct (String.compare s s0) eqn:E; try discriminate.
  apply String.compare_eq_iff in E. by subst.
Qed.

Lemma is_stage_true (s : string) (g : StageCount) :
  is_stage s g = true ↔ stage g = VStr s.
Proof.
  unfold is_stage. destruct (stage g); try (split; [discriminate|congruence]).
  rewrite String.eqb_eq. split; congruence.
Qed.

(** Counting one more document of stage [s] touches the group of [s] only. *)
Lemma bump_same (s : string) (groups : list StageCount) :
  List.filter (is_stage s) (bump (VStr s) groups)
  = match List.filter (is_stage s) groups with
    | [] => [{| stage := VStr s; count := 1 |}]
    | g :: rest => {| stage := stage g; count := count g + 1 |} :: rest
    end.
Proof.
  induction groups as [|g groups IH]; simpl.
  - unfold is_stage; simpl. by rewrite String.eqb_refl.
  - destruct (bson_eqb (stage g) (VStr s)) eqn:E.
    + apply bson_eqb_str_r in E.
      assert (is_stage s g = true) as Hg by by apply is_stage_true.
      simpl. rewrite Hg.
      assert (is_stage s {| stage := stage g; count := count g + 1 |} = true)
        as ->; [by apply is_stage_true|reflexivity].
    + assert (is_stage s g = false) as Hg.
      { apply not_true_is_false. intros H%is_stage_true.
        apply bson_eqb_str_r in H. congruence. }
      simpl. by rewrite Hg.
Qed.

Lemma bump_other (s : string) (k : Value) (groups : list StageCount) :
  k ≠ VStr s →
  List.filter (is_stage s) (bump k groups) = List.filter (is_stage s) groups.
Proof.
  intros Hk. induction groups as [|g groups IH]; simpl.
  - destruct (is_stage s _) eqn:E; [|reflexivity].
    apply is_stage_true in E. simpl in E. congruence.
  - destruct (bson_eqb (stage g) k) eqn:E; simpl.
    + assert (stage g ≠ VStr s) as Hg.
      { intros H. rewrite H in E. by apply bson_eqb_str_l in E. }
      assert (is_stage s g = false) as ->.
      { apply not_true_is_false. by intros H%is_stage_true. }
      assert (is_stage s {| stage := stage g; count := count g + 1 |} = false)
        as ->; [|reflexivity].
      apply not_true_is_false. by intros H%is_stage_true.
    + by rewrite IH.
Qed.

Lemma bump_total (k : Value) (groups : list StageCount) :
  total_count (bump k groups) = total_count groups + 1.
Proof.
  induction groups as [|g groups IH]; simpl; [reflexivity|].
  destruct (bson_eqb (stage g) k); simpl; [lia|].
  fold (total_count (bump k groups)). rewrite IH.
  fold (total_count groups). lia.
Qed.

Lemma group_by_stage_snoc (c : Collection) (d : ObjectId * Doc) :
  group_by_stage (c ++ [d]) = bump (field_or_null "stage" d.2) (group_by_stage c).
Proof. unfold group_by_stage. by rewrite fold_left_app. Qed.

Lemma count_where_snoc (p : Doc → bool) (c : Collection) (d : ObjectId * Doc) :
  count_where p (c ++ [d]) = count_where p c + (if p d.2 then 1 else 0).
Proof.
  unfold count_where. rewrite List.filter_app, length_app. simpl.
  destruct (p d.2); simpl; lia.
Qed.

Lemma count_where_nonneg (p : Doc → bool) (c : Collection) : 0 <= count_where p c.
Proof. unfold count_where. lia. Qed.

Lemma has_str_stage (s : string) (doc : Doc) :
  has_str "stage" s doc = true ↔ field_or_null "stage" doc = VStr s.
Proof.
  unfold has_str, field_or_null.
  destruct (doc !! "stage") as [[]|]; simpl;
    try (split; [discriminate|congruence]).
  rewrite String.eqb_eq. split; congruence.
Qed.

Lemma group_by_stage_filter (s : string) (c : Collection) :
  List.filter (is_stage s) (group_by_stage c)
  = if count_where (has_str "stage" s) c =? 0 then []
    else [{| stage := VStr s; count := count_where (has_str "stage" s) c |}].
Proof.
  induction c as [|d c IH] using rev_ind; [reflexivity|].
  rewrite group_by_stage_snoc, count_where_snoc.
  pose proof (count_where_nonneg (has_str "stage" s) c) as Hnn.
  destruct (has_str "stage" s d.2) eqn:E.
  - apply has_str_stage in E. rewrite E, bump_same, IH.
    destruct (Z.eqb_spec (count_where (has_str "stage" s) c) 0) as [->|Hne];
      simpl; [reflexivity|].
    destruct (Z.eqb_spec (count_where (has_str "stage" s) c + 1) 0); [lia|].
    reflexivity.
  - rewrite bump_other, IH, Z.add_0_r; [reflexivity|].
    intros H%has_str_stage. congruence.
Qed.

Lemma group_by_stage_total (c : Collection) :
  total_count (group_by_stage c) = Z.of_nat (length c).
Proof.
  induction c as [|d c IH] using rev_ind; [reflexivity|].
  rewrite group_by_stage_snoc, bump_total, IH, length_app. simpl. lia.
Qed.

Lemma group_by_stage_entry (s : string) (n : Z) (c : Collection) :
  In {| stage := VStr s; count := n |} (group_by_stage c)
  ↔ n = count_where (has_str "stage" s) c ∧ 0 < n.
Proof.
  pose proof (count_where_nonneg (has_str "stage" s) c) as Hnn.
  pose proof (group_by_stage_filter s c) as HF.
  assert (In {| stage := VStr s; count := n |} (group_by_stage c)
          ↔ In {| stage := VStr s; count := n |}
               (List.filter (is_stage s) (group_by_stage c))) as ->.
  { rewrite filter_In. unfold is_stage; simpl. rewrite String.eqb_refl.
    split; [intros H; split; [exact H|reflexivity]|intros [H _]; exact H]. }
  rewrite HF.
  destruct (Z.eqb_spec (count_where (has_str "stage" s) c) 0) as [Hz|Hne]; simpl.
  - split; [intros []|]. intros [-> ?]. lia.
  - split.
    + intros [H|[]]. injection H as <-. split; [reflexivity|lia].
    + intros [-> _]. by left.
Qed.

(** C7: the pipeline groups all deals by stage.  A stage is listed with a
    count exactly when that count is the (positive) number of deals in that
    stage, it is listed once, and the counts add up to the number of deals;
    the order of the pairs is left open. *)
Theorem pipeline_groups_deals_by_stage (d : Database) (team owner_id : option string) :
  match dashboard_snapshot (Some d) team owner_id with
  | Ok dash =>
      (∀ (s : string) (n : Z),
         In {| stage := VStr s; count := n |} (pipeline dash)
         ↔ n = count_where (has_str "stage" s) (collection d "deal") ∧ 0 < n)
      ∧ (∀ s : string, (length (List.filter (is_stage s) (pipeline dash)) <= 1)%nat)
      ∧ total_count (pipeline dash) = Z.of_nat (length (collection d "deal"))
  | Raise e => py_sum (won_values (collection d "deal")) = Raise e
  end.
Proof.
  rewrite dashboard_snapshot_eq.
  destruct (py_sum _) as [rev|e]; simpl; [|reflexivity].
  split; [|split].
  - intros s n. apply group_by_stage_entry.
  - intros s. rewrite group_by_stage_filter.
    destruct (_ =? 0); simpl; lia.
  - apply group_by_stage_total.
Qed.

Lemma collection_insert_eq (d : Database) (name : string) (c : Collection) :
  collection (<[name := c]> d) name = c.
Proof. unfold collection. by rewrite lookup_insert_eq. Qed.

Lemma collection_insert_ne (d : Database) (name other : string) (c : Collection) :
  other ≠ name → collection (<[name := c]> d) other = collection d other.
Proof. intros H. unfold collection. by rewrite lookup_insert_ne. Qed.




(** An update either leaves the collection as it is (no document selected,
    or the store refuses the map) or reports one matched document. *)
Lemma set_first_matched (p : ObjectId * Doc → bool) (data : Doc) (c : Collection) :
  match set_first p data c with
  | Ok r => r.2 = if existsb p c then 1 else 0
  | Raise e => e = WriteError ∧ existsb p c = true
  end.
Proof.
  induction c as [|x c IH]; simpl; [reflexivity|].
  destruct (p x); simpl.
  - unfold set_fields. destruct (data !! "_id") as [v|]; simpl; [|reflexivity].
    destruct (bson_eqb v (VOid x.1)); simpl; [reflexivity|by split].
  - destruct (set_first p data c) as [r|e]; simpl in *; exact IH.
Qed.











Lemma new_ObjectId_bound (c : Collection) (x : ObjectId * Doc) :
  In x c → (x.1 < new_ObjectId c)%N.
Proof.
  unfold new_ObjectId. induction c as [|y c IH]; simpl; [intros []|].
  intros [->|Hin].
  - apply N.lt_succ_r, N.le_max_l.
  - specialize (IH Hin). apply N.lt_succ_r in IH. apply N.lt_succ_r.
    etransitivity; [exact IH|apply N.le_max_r].
Qed.

Lemma new_ObjectId_fresh (c : Collection) : has_id (new_ObjectId c) c = false.
Proof.
  apply not_true_is_false. unfold has_id. rewrite existsb_exists.
  intros [x [Hin Heq]]. apply N.eqb_eq in Heq.
  pose proof (new_ObjectId_bound c x Hin). lia.
Qed.


Lemma created_spec (name : string) (d : Database) (doc : Doc) :
  created_as name d (Ok doc) (created (create_document (Some d) name doc)).
Proof. split; [reflexivity|apply new_ObjectId_fresh]. Qed.

(** C9 (as amended): a successful create answers a JSON object whose single
    key is "_id", mapped to the newly assigned identifier rendered as a
    string; the document is appended under that identifier, which no
    document of the collection had. *)
Theorem create_returns_id_under_key__id (d : Database) :
  (∀ b, created_as "lead" d (Lead.dump <$> Lead.validate validate_email b)
          (create_lead (Some d) b))
  ∧ (∀ b, created_as "deal" d (Deal.dump <$> Deal.validate b)
            (create_deal (Some d) b))
  ∧ (∀ b, created_as "task" d (Task.dump <$> Task.validate b)
            (create_task (Some d) b))
  ∧ (∀ b, created_as "activity" d (Activity.dump <$> Activity.validate b)
            (create_activity (Some d) b)).
Proof.
  split; [|split; [|split]]; intros b.
  - unfold create_lead. destruct (Lead.validate validate_email b); simpl;
      [apply created_spec|reflexivity].
  - unfold create_deal. destruct (Deal.validate b); simpl;
      [apply created_spec|reflexivity].
  - unfold create_task. destruct (Task.validate b); simpl;
      [apply created_spec|reflexivity].
  - unfold create_activity. destruct (Activity.validate b); simpl;
      [apply created_spec|reflexivity].
Qed.

(** C10: on every list handler, a filter parameter given as the empty string
    has the effect of leaving it out: no clause enters the query for it. *)
Theorem empty_filter_same_as_omitted (db : Store)
    (status q stage owner_id due related_type related_id : option string)
    (limit : Z) :
  list_leads db (Some "") q limit = list_leads db None q limit
  ∧ list_leads db status (Some "") limit = list_leads db status None limit
  ∧ list_deals db (Some "") q limit = list_deals db None q limit
  ∧ list_deals db stage (Some "") limit = list_deals db stage None limit
  ∧ list_tasks db (Some "") due limit = list_tasks db None due limit
  ∧ list_tasks db owner_id (Some "") limit = list_tasks db owner_id None limit
  ∧ list_activities db (Some "") related_id limit
    = list_activities db None related_id limit
  ∧ list_activities db related_type (Some "") limit
    = list_activities db related_type None limit
  ∧ list_leads db (Some "") (Some "") limit = get_documents db "lead" [] limit
  ∧ list_deals db (Some "") (Some "") limit = get_documents db "deal" [] limit
  ∧ list_tasks db (Some "") due limit = get_documents db "task" [] limit
  ∧ list_activities db (Some "") (Some "") limit
    = get_documents db "activity" [] limit.
Proof. repeat split; reflexivity. Qed.

Lemma is_nil_app {A} (l1 l2 : list A) :
  is_nil (l1 ++ l2) = is_nil l1 && is_nil l2.
Proof. by destruct l1. Qed.

Lemma ge_le_in_range (f : string) (lo hi n : Z) :
  is_nil (ge_le f lo hi (Some n)) = in_range lo hi n.
Proof.
  unfold ge_le, in_range.
  destruct (Z.ltb_spec n lo), (Z.ltb_spec hi n),
    (Z.leb_spec lo n), (Z.leb_spec n hi); simpl; (done || lia).
Qed.

Lemma Lead_validate_ok (b : Lead.body) :
  is_ok (Lead.validate validate_email b) = is_nil (Lead.errors validate_email b).
Proof.
  unfold Lead.validate.
  destruct (Lead.errors validate_email b) as [|e errs] eqn:E; [|reflexivity].
  destruct (Lead.b_name b) eqn:N; [reflexivity|].
  unfold Lead.errors in E. rewrite N in E. discriminate.
Qed.

Lemma create_lead_ok (d : Database) (b : Lead.body) :
  is_ok (create_lead (Some d) b).2 = is_ok (Lead.validate validate_email b).
Proof. unfold create_lead. by destruct (Lead.validate validate_email b). Qed.

Lemma create_lead_invalid (db : Store) (b : Lead.body) :
  Lead.errors validate_email b ≠ [] →
  create_lead db b
  = (db, Raise (RequestValidationError (Lead.errors validate_email b))).
Proof.
  intros H. unfold create_lead, Lead.validate.
  destruct (Lead.errors validate_email b); [done|].
  by destruct (Lead.b_name b).
Qed.

Lemma is_nil_required {A} (f : string) (v : option A) :
  is_nil (required f v) = given v.
Proof. by destruct v. Qed.

Lemma is_nil_literal (f : string) (allowed : list string) (v : option string) :
  is_nil (literal f allowed v) = literal_ok allowed v.
Proof.
  destruct v as [s|]; [|reflexivity]. unfold literal, literal_ok.
  by destruct (existsb _ _).
Qed.

Lemma is_nil_ge_le (f : string) (lo hi : Z) (v : option Z) :
  is_nil (ge_le f lo hi v) = range_ok lo hi v.
Proof.
  destruct v as [n|]; [|reflexivity]. apply ge_le_in_range.
Qed.

Lemma is_nil_email_str (f : string) (v : option string) :
  is_nil (email_str validate_email f v) = email_field_ok validate_email v.
Proof.
  destruct v as [s|]; [|reflexivity]. unfold email_str, email_field_ok.
  by destruct (validate_email s).
Qed.


(** C2: creating a lead accepts a score exactly when it lies in [0,100].  A
    creation that gives a score succeeds iff the score is in range, the name
    is given, the address is one the email check takes and the status is one
    of the four allowed: so, with the rest of the body fixed, iff the score
    is in range and the creation succeeds without it.  An accepted score is
    the one stored; a score out of range is answered with a validation error
    on the field [score], and nothing is stored. *)
Theorem lead_score_accepted_iff_in_range (db : Store) (d : Database)
    (b : Lead.body) (s : Z) :
  let with_s := Lead.with_score b (Some s) in
  is_ok (create_lead (Some d) with_s).2
  = in_range 0 100 s
    && (given (Lead.b_name b)
        && email_field_ok validate_email (Lead.b_email b)
        && literal_ok ["new"; "contacted"; "qualified"; "lost"] (Lead.b_status b))
  ∧ is_ok (create_lead (Some d) with_s).2
    = in_range 0 100 s && is_ok (create_lead (Some d) (Lead.with_score b None)).2
  ∧ match Lead.validate validate_email with_s with
    | Ok lead =>
        Lead.score lead = Some s
        ∧ Lead.dump lead !! "score" = Some (VInt s)
        ∧ created_as "lead" d (Ok (Lead.dump lead)) (create_lead (Some d) with_s)
    | Raise e => create_lead db with_s = (db, Raise e)
    end
  ∧ if in_range 0 100 s then True
    else ∃ errs kind,
        create_lead db with_s = (db, Raise (RequestValidationError errs))
        ∧ In ("score", kind) errs.
Proof.
  cbv zeta.
  assert (∀ o, is_ok (create_lead (Some d) (Lead.with_score b o)).2
               = range_ok 0 100 o
                 && (given (Lead.b_name b)
                     && email_field_ok validate_email (Lead.b_email b)
                     && literal_ok ["new"; "contacted"; "qualified"; "lost"]
                          (Lead.b_status b))) as Hacc.
  { intros o. rewrite create_lead_ok, Lead_validate_ok.
    unfold Lead.errors, Lead.with_score.
    cbn [Lead.b_name Lead.b_email Lead.b_status Lead.b_score].
    rewrite !is_nil_app, is_nil_required, is_nil_email_str, is_nil_literal,
      is_nil_ge_le.
    destruct (range_ok 0 100 o), (given _), (email_field_ok _ _),
      (literal_ok _ _); reflexivity. }
  split; [exact (Hacc (Some s))|]. split; [|split].
  - rewrite !Hacc. reflexivity.
  - unfold create_lead.
    destruct (Lead.validate validate_email (Lead.with_score b (Some s)))
      as [lead|e] eqn:Hv; [|reflexivity].
    assert (Lead.score lead = Some s) as Hs.
    { unfold Lead.validate in Hv.
      destruct (Lead.errors _ _); [|discriminate].
      destruct (Lead.b_name _); [|discriminate].
      injection Hv as <-. reflexivity. }
    split; [exact Hs|]. split; [|apply created_spec].
    unfold Lead.dump. rewrite Hs. reflexivity.
  - destruct (in_range 0 100 s) eqn:R; [exact I|].
    assert (∃ kind, ge_le "score" 0 100 (Some s) = [("score", kind)]) as [kind Hk].
    { unfold ge_le. unfold in_range in R.
      destruct (Z.ltb_spec s 0); [eauto|]. destruct (Z.ltb_spec 100 s); [eauto|].
      apply andb_false_iff in R as [R|R]; apply Z.leb_gt in R; lia. }
    exists (Lead.errors validate_email (Lead.with_score b (Some s))), kind. split.
    + apply create_lead_invalid. unfold Lead.errors, Lead.with_score.
      cbn [Lead.b_name Lead.b_email Lead.b_status Lead.b_score]. rewrite Hk.
      intros H. apply (f_equal is_nil) in H. rewrite !is_nil_app in H.
      cbn [is_nil] in H. rewrite !andb_false_r in H. discriminate.
    + unfold Lead.errors, Lead.with_score.
      cbn [Lead.b_name Lead.b_email Lead.b_status Lead.b_score].
      rewrite Hk, !in_app_iff. simpl. do 3 right. by left.
Qed.

Lemma Deal_validate_ok (b : Deal.body) :
  is_ok (Deal.validate b) = is_nil (Deal.errors b).
Proof.
  unfold Deal.validate.
  destruct (Deal.errors b) as [|e errs] eqn:E; [|reflexivity].
  destruct (Deal.b_title b) eqn:N; [reflexivity|].
  unfold Deal.errors in E. rewrite N in E. discriminate.
Qed.



Lemma prefix_ci_spec (p s : string) :
  prefix_ci p s = true ↔ ∃ post, lower_str s = (lower_str p ++ post)%string.
Proof.
  revert s; induction p as [|a p IH]; intros s; simpl.
  - split; [eauto|done].
  - destruct s as [|b s]; simpl.
    + split; [done|]. intros [post H]. discriminate.
    + rewrite andb_true_iff, Ascii.eqb_eq, IH. split.
      * intros [Hab [post Hs]]. exists post. by rewrite Hab, Hs.
      * intros [post H]. injection H as Hab Hs. eauto.
Qed.

Lemma contains_ci_spec (p s : string) : contains_ci p s = true ↔ occurs_ci p s.
Proof.
  unfold occurs_ci. induction s as [|c s IH]; simpl.
  - rewrite orb_false_r, prefix_ci_spec. split.
    + intros [post H]. by exists "", post.
    + intros (pre & post & H). destruct pre; [eauto|discriminate].
  - rewrite orb_true_iff, IH.
    change (prefix_ci p (String c s) = true
            ∨ (∃ pre post, lower_str s = (pre ++ lower_str p ++ post)%string)
            ↔ ∃ pre post,
                String (lower c) (lower_str s)
                = (pre ++ lower_str p ++ post)%string).
    rewrite prefix_ci_spec. simpl. split.
    + intros [[post H]|(pre & post & H)].
      * by exists "", post.
      * exists (String (lower c) pre), post. simpl. by rewrite H.
    + intros (pre & post & H). destruct pre as [|x pre]; simpl in H.
      * left. eauto.
      * right. injection H as _ H. eauto.
Qed.

Lemma has_str_spec (f v : string) (doc : Doc) :
  has_str f v doc = true ↔ doc !! f = Some (VStr v).
Proof.
  unfold has_str. destruct (doc !! f) as [[]|];
    try (split; [discriminate|congruence]).
  rewrite String.eqb_eq. split; congruence.
Qed.

Lemma status_ok_spec (status : option string) (doc : Doc) :
  status_ok status doc = true ↔ status_is status doc.
Proof.
  unfold status_ok, status_is. destruct status as [s|]; [|done].
  destruct (py_bool s); [apply has_str_spec|done].
Qed.

Lemma pattern_found_spec (search : string → bool) (f : string) (doc : Doc) :
  pattern_found search f doc = true ↔ pattern_occurs search f doc.
Proof.
  unfold pattern_found, pattern_occurs.
  destruct (doc !! f) as [[]|];
    try (split; [discriminate|intros (t & H & _); congruence]).
  split; [eauto|]. intros (t & H & Ht). by injection H as ->.
Qed.

(** C8 (as amended): the free-text parameter of a lead list is handed to the
    store as a regular expression, with the option that ignores letter case,
    on the name, the email and the phone.  A lead is listed exactly when
    the pattern matches in one of the three and, where a status is asked for
    as well, its status is that one; a text that the store does not take as
    a pattern makes the request fail. *)
Theorem list_leads_plain_text_search (d : Database) (status : option string)
    (q : string) (limit : Z) :
  q ≠ "" →
  match regex q "i" with
  | Some search =>
      let listed doc :=
        status_ok status doc
        && (pattern_found search "name" doc || pattern_found search "email" doc
            || pattern_found search "phone" doc) in
      list_leads (Some d) status (Some q) limit = listing d "lead" listed limit
      ∧ ∀ doc, listed doc = true
               ↔ status_is status doc
                 ∧ (pattern_occurs search "name" doc
                    ∨ pattern_occurs search "email" doc
                    ∨ pattern_occurs search "phone" doc)
  | None => list_leads (Some d) status (Some q) limit = Raise OperationFailure
  end.
Proof.
  intros Hq.
  assert (py_bool q = true) as Hb by (by destruct q).
  destruct (regex q "i") as [search|] eqn:Hs.
  - cbv zeta. split.
    + unfold list_leads, listing, add_if, get_documents, find. rewrite Hb.
      destruct status as [s|]; [destruct (py_bool s) eqn:Hsb|];
        simpl; rewrite Hs; simpl; do 3 f_equal; apply filter_ext;
        intros [o doc]; unfold status_ok, pattern_found; simpl; rewrite ?Hsb;
        rewrite ?andb_true_r, ?orb_false_r, ?orb_assoc; reflexivity.
    + intros doc.
      rewrite andb_true_iff, !orb_true_iff, status_ok_spec, !pattern_found_spec.
      split; (intros [Hst Hor]; split; [exact Hst|]).
      * destruct Hor as [[H|H]|H]; auto.
      * destruct Hor as [H|[H|H]]; auto.
  - unfold list_leads, get_documents, find, add_if. rewrite Hb.
    destruct status as [s|]; [destruct (py_bool s)|]; simpl; by rewrite Hs.
Qed.

(** ** The schemas *)

Lemma required_fields {A} (f : string) (v : option A) :
  map fst (required f v) = unless (given v) f.
Proof. by destruct v. Qed.

Lemma literal_fields (f : string) (allowed : list string) (v : option string) :
  map fst (literal f allowed v) = unless (literal_ok allowed v) f.
Proof.
  destruct v as [s|]; [|reflexivity]. unfold literal, literal_ok.
  by destruct (existsb _ allowed).
Qed.

Lemma ge_le_fields (f : string) (lo hi : Z) (v : option Z) :
  map fst (ge_le f lo hi v) = unless (range_ok lo hi v) f.
Proof.
  destruct v as [n|]; [|reflexivity]. unfold ge_le, range_ok.
  destruct (Z.ltb_spec n lo), (Z.ltb_spec hi n),
    (Z.leb_spec lo n), (Z.leb_spec n hi); simpl; (reflexivity || lia).
Qed.

Lemma email_fields (f : string) (v : option string) :
  map fst (email_str validate_email f v) = unless (email_field_ok validate_email v) f.
Proof.
  destruct v as [s|]; [|reflexivity]. unfold email_str, email_field_ok.
  by destruct (validate_email s).
Qed.

Lemma float_fields (f : string) (v : option (Z + spec_float)) :
  map fst (float_field f v) = unless (float_field_ok v) f.
Proof.
  destruct v as [x|]; [|reflexivity]. unfold float_field, float_field_ok.
  by destruct (float_ok x).
Qed.

Lemma is_nil_unless (ok : bool) (f : string) : is_nil (unless ok f) = ok.
Proof. by destruct ok. Qed.

Lemma is_nil_fields (errs : Errors) : is_nil (map fst errs) = is_nil errs.
Proof. by destruct errs. Qed.

Ltac fields_of_errors :=
  rewrite ?map_app, ?required_fields, ?literal_fields, ?ge_le_fields,
    ?email_fields, ?float_fields; reflexivity.

Ltac accepted_iff Hfields :=
  rewrite <- is_nil_fields, Hfields, ?is_nil_app, ?is_nil_unless, ?andb_assoc;
  reflexivity.

(** X1: which lead bodies are accepted, what a refusal names, the default
    of [status], and the address kept: the normal form that the email check
    returns. *)
Theorem Lead_validation (b : Lead.body) :
  map fst (Lead.errors validate_email b)
  = unless (given (Lead.b_name b)) "name"
    ++ unless (email_field_ok validate_email (Lead.b_email b)) "email"
    ++ unless (literal_ok ["new"; "contacted"; "qualified"; "lost"]
                 (Lead.b_status b)) "status"
    ++ unless (range_ok 0 100 (Lead.b_score b)) "score"
  ∧ is_ok (Lead.validate validate_email b)
    = given (Lead.b_name b)
      && email_field_ok validate_email (Lead.b_email b)
      && literal_ok ["new"; "contacted"; "qualified"; "lost"] (Lead.b_status b)
      && range_ok 0 100 (Lead.b_score b)
  ∧ match Lead.validate validate_email b with
    | Ok l =>
        Lead.b_name b = Some (Lead.name l)
        ∧ Lead.status l = default "new" (Lead.b_status b)
        ∧ Lead.email l = Lead.b_email b ≫= validate_email
        ∧ Lead.dump l !! "email"
          = Some (opt_str (Lead.b_email b ≫= validate_email))
        ∧ Lead.score l = Lead.b_score b
    | Raise e =>
        e = RequestValidationError (Lead.errors validate_email b)
        ∧ Lead.errors validate_email b ≠ []
    end.
Proof.
  assert (map fst (Lead.errors validate_email b)
          = unless (given (Lead.b_name b)) "name"
            ++ unless (email_field_ok validate_email (Lead.b_email b)) "email"
            ++ unless (literal_ok ["new"; "contacted"; "qualified"; "lost"]
                         (Lead.b_status b)) "status"
            ++ unless (range_ok 0 100 (Lead.b_score b)) "score") as Hfields
    by (unfold Lead.errors; fields_of_errors).
  split; [exact Hfields|]. split.
  - rewrite Lead_validate_ok. accepted_iff Hfields.
  - unfold Lead.validate.
    destruct (Lead.errors validate_email b) as [|e errs] eqn:E.
    + destruct (Lead.b_name b) eqn:N; [done|].
      unfold Lead.errors in E. rewrite N in E. discriminate.
    + done.
Qed.

(** X2: which deal bodies are accepted (an integer [value] beyond the range
    of a double is refused), and the defaults of [stage] and [value]. *)
Theorem Deal_validation (b : Deal.body) :
  map fst (Deal.errors b)
  = unless (given (Deal.b_title b)) "title"
    ++ unless (float_field_ok (Deal.b_value b)) "value"
    ++ unless (range_ok 0 100 (Deal.b_probability b)) "probability"
  ∧ is_ok (Deal.validate b)
    = given (Deal.b_title b) && float_field_ok (Deal.b_value b)
      && range_ok 0 100 (Deal.b_probability b)
  ∧ match Deal.validate b with
    | Ok deal =>
        Deal.b_title b = Some (Deal.title deal)
        ∧ Deal.stage deal = default "prospecting" (Deal.b_stage b)
        ∧ Deal.value deal = Deal.value_of (Deal.b_value b)
        ∧ Deal.probability deal = Deal.b_probability b
        ∧ Deal.dump deal !! "stage"
          = Some (VStr (default "prospecting" (Deal.b_stage b)))
    | Raise e =>
        e = RequestValidationError (Deal.errors b) ∧ Deal.errors b ≠ []
    end.
Proof.
  assert (map fst (Deal.errors b)
          = unless (given (Deal.b_title b)) "title"
            ++ unless (float_field_ok (Deal.b_value b)) "value"
            ++ unless (range_ok 0 100 (Deal.b_probability b)) "probability")
    as Hfields by (unfold Deal.errors; fields_of_errors).
  split; [exact Hfields|]. split.
  - rewrite Deal_validate_ok. accepted_iff Hfields.
  - unfold Deal.validate.
    destruct (Deal.errors b) as [|e errs] eqn:E.
    + destruct (Deal.b_title b) eqn:N.
      * done.
      * unfold Deal.errors in E. rewrite N in E. discriminate.
    + done.
Qed.


(** X3: which task bodies are accepted, and the defaults of [type],
    [priority] and [completed]. *)
Theorem Task_validation (b : Task.body) :
  map fst (Task.errors b)
  = unless (literal_ok ["call"; "meeting"; "follow-up"; "email"] (Task.b_type b))
      "type"
    ++ unless (given (Task.b_title b)) "title"
    ++ unless (literal_ok ["low"; "medium"; "high"] (Task.b_priority b))
         "priority"
    ++ unless (literal_ok ["lead"; "contact"; "deal"; "account"]
                 (Task.b_related_type b)) "related_type"
  ∧ is_ok (Task.validate b)
    = literal_ok ["call"; "meeting"; "follow-up"; "email"] (Task.b_type b)
      && given (Task.b_title b)
      && literal_ok ["low"; "medium"; "high"] (Task.b_priority b)
      && literal_ok ["lead"; "contact"; "deal"; "account"] (Task.b_related_type b)
  ∧ match Task.validate b with
    | Ok task =>
        Task.b_title b = Some (Task.title task)
        ∧ Task.type task = default "follow-up" (Task.b_type b)
        ∧ Task.priority task = default "medium" (Task.b_priority b)
        ∧ Task.completed task = default false (Task.b_completed b)
        ∧ Task.related_type task = Task.b_related_type b
    | Raise e =>
        e = RequestValidationError (Task.errors b) ∧ Task.errors b ≠ []
    end.
Proof.
  assert (map fst (Task.errors b)
          = unless (literal_ok ["call"; "meeting"; "follow-up"; "email"]
                      (Task.b_type b)) "type"
            ++ unless (given (Task.b_title b)) "title"
            ++ unless (literal_ok ["low"; "medium"; "high"] (Task.b_priority b))
                 "priority"
            ++ unless (literal_ok ["lead"; "contact"; "deal"; "account"]
                         (Task.b_related_type b)) "related_type") as Hfields
    by (unfold Task.errors, related_types; fields_of_errors).
  assert (is_nil (Task.errors b)
          = literal_ok ["call"; "meeting"; "follow-up"; "email"] (Task.b_type b)
            && given (Task.b_title b)
            && literal_ok ["low"; "medium"; "high"] (Task.b_priority b)
            && literal_ok ["lead"; "contact"; "deal"; "account"]
                 (Task.b_related_type b)) as Hnil by accepted_iff Hfields.
  split; [exact Hfields|]. unfold Task.validate.
  destruct (Task.errors b) as [|e errs] eqn:E.
  - destruct (Task.b_title b) eqn:N; [done|].
    simpl in Hnil. rewrite andb_false_r in Hnil. discriminate.
  - done.
Qed.

(** X4: which activity bodies are accepted, and the default of [type]. *)
Theorem Activity_validation (b : Activity.body) :
  map fst (Activity.errors b)
  = unless (given (Activity.b_subject b)) "subject"
    ++ unless (literal_ok ["note"; "call"; "email"; "meeting"; "status-change"]
                 (Activity.b_type b)) "type"
    ++ unless (literal_ok ["lead"; "contact"; "deal"; "account"]
                 (Activity.b_related_type b)) "related_type"
  ∧ is_ok (Activity.validate b)
    = given (Activity.b_subject b)
      && literal_ok ["note"; "call"; "email"; "meeting"; "status-change"]
           (Activity.b_type b)
      && literal_ok ["lead"; "contact"; "deal"; "account"]
           (Activity.b_related_type b)
  ∧ match Activity.validate b with
    | Ok act =>
        Activity.b_subject b = Some (Activity.subject act)
        ∧ Activity.type act = default "note" (Activity.b_type b)
        ∧ Activity.related_type act = Activity.b_related_type b
        ∧ Activity.related_id act = Activity.b_related_id b
    | Raise e =>
        e = RequestValidationError (Activity.errors b) ∧ Activity.errors b ≠ []
    end.
Proof.
  assert (map fst (Activity.errors b)
          = unless (given (Activity.b_subject b)) "subject"
            ++ unless (literal_ok
                         ["note"; "call"; "email"; "meeting"; "status-change"]
                         (Activity.b_type b)) "type"
            ++ unless (literal_ok ["lead"; "contact"; "deal"; "account"]
                         (Activity.b_related_type b)) "related_type") as Hfields
    by (unfold Activity.errors, related_types; fields_of_errors).
  assert (is_nil (Activity.errors b)
          = given (Activity.b_subject b)
            && literal_ok ["note"; "call"; "email"; "meeting"; "status-change"]
                 (Activity.b_type b)
            && literal_ok ["lead"; "contact"; "deal"; "account"]
                 (Activity.b_related_type b)) as Hnil by accepted_iff Hfields.
  split; [exact Hfields|]. unfold Activity.validate.
  destruct (Activity.errors b) as [|e errs] eqn:E.
  - destruct (Activity.b_subject b) eqn:N; [done|]. discriminate.
  - done.
Qed.

(** X5: which user bodies are accepted: [name] and [email] are required, the
    email must pass the check, and the user holds its normal form; [role] is
    one of three and defaults to "rep", [is_active] defaults to true. *)
Theorem User_validation (b : User.body) :
  map fst (User.errors validate_email b)
  = unless (given (User.b_name b)) "name"
    ++ unless (given (User.b_email b)) "email"
    ++ unless (email_field_ok validate_email (User.b_email b)) "email"
    ++ unless (literal_ok ["admin"; "manager"; "rep"] (User.b_role b)) "role"
  ∧ is_ok (User.validate validate_email b)
    = given (User.b_name b)
      && given (User.b_email b)
      && email_field_ok validate_email (User.b_email b)
      && literal_ok ["admin"; "manager"; "rep"] (User.b_role b)
  ∧ match User.validate validate_email b with
    | Ok u =>
        User.b_name b = Some (User.name u)
        ∧ User.b_email b ≫= validate_email = Some (User.email u)
        ∧ User.role u = default "rep" (User.b_role b)
        ∧ User.is_active u = default true (User.b_is_active b)
    | Raise e =>
        e = RequestValidationError (User.errors validate_email b)
        ∧ User.errors validate_email b ≠ []
    end.
Proof.
  assert (map fst (User.errors validate_email b)
          = unless (given (User.b_name b)) "name"
            ++ unless (given (User.b_email b)) "email"
            ++ unless (email_field_ok validate_email (User.b_email b)) "email"
            ++ unless (literal_ok ["admin"; "manager"; "rep"] (User.b_role b))
                 "role") as Hfields
    by (unfold User.errors; fields_of_errors).
  assert (is_nil (User.errors validate_email b)
          = given (User.b_name b)
            && given (User.b_email b)
            && email_field_ok validate_email (User.b_email b)
            && literal_ok ["admin"; "manager"; "rep"] (User.b_role b)) as Hnil
    by accepted_iff Hfields.
  split; [exact Hfields|]. unfold User.validate.
  destruct (User.errors validate_email b) as [|e errs] eqn:E.
  - destruct (User.b_name b) eqn:N; [|discriminate].
    destruct (User.b_email b) as [m|] eqn:M; [|discriminate]. simpl in *.
    destruct (validate_email m); [done|discriminate].
  - by destruct (User.b_name b), (User.b_email b ≫= validate_email).
Qed.

(** X6: which contact bodies are accepted: only [first_name] is required; an
    email is checked when one is given, and kept in the normal form that the
    check returns; [tags] defaults to the empty list. *)
Theorem Contact_validation (b : Contact.body) :
  map fst (Contact.errors validate_email b)
  = unless (given (Contact.b_first_name b)) "first_name"
    ++ unless (email_field_ok validate_email (Contact.b_email b)) "email"
  ∧ is_ok (Contact.validate validate_email b)
    = given (Contact.b_first_name b)
      && email_field_ok validate_email (Contact.b_email b)
  ∧ match Contact.validate validate_email b with
    | Ok c =>
        Contact.b_first_name b = Some (Contact.first_name c)
        ∧ Contact.email c = Contact.b_email b ≫= validate_email
        ∧ Contact.tags c = default [] (Contact.b_tags b)
    | Raise e =>
        e = RequestValidationError (Contact.errors validate_email b)
        ∧ Contact.errors validate_email b ≠ []
    end.
Proof.
  assert (map fst (Contact.errors validate_email b)
          = unless (given (Contact.b_first_name b)) "first_name"
            ++ unless (email_field_ok validate_email (Contact.b_email b)) "email")
    as Hfields by (unfold Contact.errors; fields_of_errors).
  assert (is_nil (Contact.errors validate_email b)
          = given (Contact.b_first_name b)
            && email_field_ok validate_email (Contact.b_email b)) as Hnil
    by accepted_iff Hfields.
  split; [exact Hfields|]. unfold Contact.validate.
  destruct (Contact.errors validate_email b) as [|e errs] eqn:E.
  - destruct (Contact.b_first_name b) eqn:N; [done|discriminate].
  - done.
Qed.

(** X7: which product and account bodies are accepted: a product needs
    [title], [price] and [category], its price must not be an integer beyond
    the range of a double, and [in_stock] defaults to true; an account needs
    [name] only, and [tags] defaults to the empty list. *)
Theorem Product_Account_validation (p : Product.body) (a : Account.body) :
  map fst (Product.errors p)
  = unless (given (Product.b_title p)) "title"
    ++ unless (given (Product.b_price p)) "price"
    ++ unless (float_field_ok (Product.b_price p)) "price"
    ++ unless (given (Product.b_category p)) "category"
  ∧ is_ok (Product.validate p)
    = given (Product.b_title p) && given (Product.b_price p)
      && float_field_ok (Product.b_price p)
      && given (Product.b_category p)
  ∧ match Product.validate p with
    | Ok x =>
        Product.b_title p = Some (Product.title x)
        ∧ (∃ v, Product.b_price p = Some v ∧ float_ok v = true
                ∧ Product.price x
                  = match v with inl n => Float.of_int n | inr y => y end)
        ∧ Product.b_category p = Some (Product.category x)
        ∧ Product.in_stock x = default true (Product.b_in_stock p)
    | Raise e =>
        e = RequestValidationError (Product.errors p) ∧ Product.errors p ≠ []
    end
  ∧ is_ok (Account.validate a) = given (Account.b_name a)
  ∧ match Account.validate a with
    | Ok x =>
        Account.b_name a = Some (Account.name x)
        ∧ Account.tags x = default [] (Account.b_tags a)
    | Raise e => e = RequestValidationError [("name", "missing")]
    end.
Proof.
  assert (map fst (Product.errors p)
          = unless (given (Product.b_title p)) "title"
            ++ unless (given (Product.b_price p)) "price"
            ++ unless (float_field_ok (Product.b_price p)) "price"
            ++ unless (given (Product.b_category p)) "category") as Hfields
    by (unfold Product.errors; fields_of_errors).
  assert (is_nil (Product.errors p)
          = given (Product.b_title p) && given (Product.b_price p)
            && float_field_ok (Product.b_price p)
            && given (Product.b_category p)) as Hnil by accepted_iff Hfields.
  split; [exact Hfields|]. unfold Product.validate, Account.validate, Account.errors.
  split; [|split; [|split]].
  - destruct (Product.errors p) as [|e errs] eqn:E; simpl in Hnil;
      rewrite <- Hnil; [|done].
    destruct (Product.b_title p), (Product.b_price p), (Product.b_category p);
      simpl in Hnil; rewrite ?andb_false_r in Hnil; (done || discriminate).
  - destruct (Product.errors p) as [|e errs] eqn:E; [|done].
    destruct (Product.b_title p), (Product.b_price p) as [v|],
      (Product.b_category p); simpl in Hnil; rewrite ?andb_false_r in Hnil;
      try discriminate.
    split; [reflexivity|]. split; [|by split].
    exists v. destruct (float_ok v); [|discriminate].
    split; [reflexivity|]. split; [reflexivity|]. by destruct v.
  - by destruct (Account.b_name a).
  - by destruct (Account.b_name a).
Qed.


(** ** Updates *)

Lemma set_fields_id (data : Doc) (x x' : ObjectId * Doc) :
  set_fields data x = Ok x' → x'.1 = x.1.
Proof.
  unfold set_fields. destruct (data !! "_id") as [v|].
  - destruct (bson_eqb v (VOid x.1)); [|discriminate]. by intros [= <-].
  - by intros [= <-].
Qed.

Lemma set_first_ids (p : ObjectId * Doc → bool) (data : Doc) (c : Collection)
    (r : Collection * Z) :
  set_first p data c = Ok r → r.1.*1 = c.*1.
Proof.
  revert r; induction c as [|x c IH]; intros r; simpl.
  - by intros [= <-].
  - destruct (p x); simpl.
    + destruct (set_fields data x) as [x'|e] eqn:Hx; simpl; [|discriminate].
      intros [= <-]. simpl.
      change ((x' :: c).*1) with (x'.1 :: c.*1).
      change ((x :: c).*1) with (x.1 :: c.*1).
      by rewrite (set_fields_id _ _ _ Hx).
    + destruct (set_first p data c) as [r'|e]; simpl; [|discriminate].
      intros [= <-]. simpl.
      change ((x :: r'.1).*1) with (x.1 :: r'.1.*1).
      change ((x :: c).*1) with (x.1 :: c.*1). f_equal. by apply IH.
Qed.

Lemma update_one_ids (d : Database) (name : string) (q : Filter) (data : Doc)
    (d' : Database) (n : Z) (other : string) :
  update_one d name q data = Ok (d', n) →
  (collection d' other).*1 = (collection d other).*1.
Proof.
  unfold update_one. destruct (compile_filter q) as [p|e]; simpl; [|done].
  destruct (encodable data); [|done].
  destruct (set_first p data (collection d name)) as [r|e] eqn:Hr; simpl; [|done].
  pose proof (set_first_ids p data _ r Hr) as Hids.
  intros H. injection H as <- <-.
  destruct (r.2 =? 0); [reflexivity|].
  destruct (decide (other = name)) as [->|Hne].
  - by rewrite collection_insert_eq.
  - by rewrite collection_insert_ne.
Qed.

Lemma update_by_id_ids (d : Database) (name detail id_str : string) (data : Doc) :
  ∃ d', (update_by_id (Some d) name detail id_str data).1 = Some d'
        ∧ ∀ other, (collection d' other).*1 = (collection d other).*1.
Proof.
  unfold update_by_id.
  destruct (to_object_id id_str) as [o|e]; simpl; [|eauto].
  destruct (update_one d name [IdIs o] data) as [[d' n]|e] eqn:E; simpl; [|eauto].
  exists d'. split; [reflexivity|]. intros other. by eapply update_one_ids.
Qed.

(** X8: an update never adds, removes or reorders documents: whatever the
    identifier and the map, every collection holds the same identifiers in
    the same order afterwards. *)
Theorem update_keeps_identifiers
    (name : string) (h : Store → string → Doc → Store * result Doc)
    (d : Database) (id_str : string) (data : Doc) :
  In (name, h) update_handlers →
  ∃ d', (h (Some d) id_str data).1 = Some d'
        ∧ ∀ other, (collection d' other).*1 = (collection d other).*1.
Proof.
  intros Hh.
  assert (∃ detail, h = fun db => update_by_id db name detail) as [detail ->].
  { simpl in Hh. destruct Hh as [H|[H|[H|[]]]]; injection H as <- <-; eauto. }
  apply update_by_id_ids.
Qed.








(** ** The dashboard after other requests *)

Lemma numbers_is_number (l : list Value) :
  given (numbers l) = forallb is_number l.
Proof.
  induction l as [|v l IH]; simpl; [reflexivity|].
  rewrite <- IH. unfold is_number.
  destruct (as_number v); simpl; [by destruct (numbers l)|reflexivity].
Qed.

Lemma py_sum_numbers (l : list Value) :
  if forallb is_number l
  then ∃ r, py_sum l = Ok r ∧ is_number r = true
  else py_sum l = Raise TypeError.
Proof.
  pose proof (numbers_is_number l) as H. unfold py_sum.
  destruct (forallb is_number l), (numbers l) as [ns|]; try discriminate;
    [|reflexivity].
  destruct (integers ns); eauto.
Qed.

(** X10: the dashboard answers exactly when the [value] of every deal won is
    a number (or missing); otherwise it raises TypeError. *)
Theorem dashboard_answers_iff_won_values_numeric (d : Database)
    (team owner_id : option string) :
  if forallb is_number (won_values (collection d "deal"))
  then ∃ rev, dashboard_snapshot (Some d) team owner_id = Ok (snapshot_of d rev)
              ∧ is_number rev = true
  else dashboard_snapshot (Some d) team owner_id = Raise TypeError.
Proof.
  rewrite dashboard_snapshot_eq.
  pose proof (py_sum_numbers (won_values (collection d "deal"))) as H.
  destruct (forallb is_number _).
  - destruct H as (rev & -> & Hrev). eauto.
  - by rewrite H.
Qed.





(** X12: after a lead is created the dashboard is the one before with one
    more lead, and with the rate recomputed from one more qualified lead when
    the new lead's status is "qualified"; a refused body changes nothing. *)
Theorem create_lead_then_dashboard (d : Database) (b : Lead.body)
    (team owner_id : option string) :
  match Lead.validate validate_email b with
  | Ok lead =>
      ∃ d', (create_lead (Some d) b).1 = Some d'
            ∧ dashboard_snapshot (Some d') team owner_id
              = with_lead
                  (count_where (has_str "status" "qualified") (collection d "lead"))
                  (Lead.status lead)
                <$> dashboard_snapshot (Some d) team owner_id
  | Raise e => create_lead (Some d) b = (Some d, Raise e)
  end.
Proof.
  unfold create_lead. destruct (Lead.validate validate_email b) as [lead|e]; [|done].
  eexists. split; [reflexivity|].
  rewrite !dashboard_snapshot_eq.
  rewrite (collection_insert_ne _ "lead" "deal") by done.
  destruct (py_sum _) as [rev|e]; simpl; [|reflexivity].
  unfold snapshot_of, with_lead. simpl.
  rewrite (collection_insert_ne _ "lead" "deal") by done.
  rewrite (collection_insert_ne _ "lead" "activity") by done.
  rewrite collection_insert_eq, count_where_snoc, length_app. simpl.
  replace (has_str "status" "qualified" (Lead.dump lead))
    with (String.eqb (Lead.status lead) "qualified") by reflexivity.
  replace (Z.of_nat (length (collection d "lead") + 1))
    with (Z.of_nat (length (collection d "lead")) + 1) by lia.
  reflexivity.
Qed.

Lemma won_values_snoc (c : Collection) (x : ObjectId * Doc) :
  won_values (c ++ [x])
  = won_values c
    ++ (if is_won x.2 then [default (VInt 0) (x.2 !! "value")] else []).
Proof.
  unfold won_values. rewrite List.filter_app, map_app. simpl.
  by destruct (is_won x.2).
Qed.

(** X13: after a deal is created the dashboard is the one before with one
    more deal, counted under its stage in the pipeline; its value joins the
    values that are summed for the revenue, after those of the deals won
    before, exactly when its stage is "won" or "closed-won"; a refused body
    changes nothing. *)
Theorem create_deal_then_dashboard (d : Database) (b : Deal.body)
    (team owner_id : option string) :
  match Deal.validate b with
  | Ok deal =>
      ∃ d', (create_deal (Some d) b).1 = Some d'
            ∧ won_values (collection d' "deal")
              = won_values (collection d "deal")
                ++ (if won_stage (Deal.stage deal)
                    then [VFloat (Deal.value deal)] else [])
            ∧ dashboard_snapshot (Some d') team owner_id
              = if won_stage (Deal.stage deal)
                then
                  total_revenue ← py_sum (won_values (collection d "deal")
                                          ++ [VFloat (Deal.value deal)]);
                  Ok (with_deal (Deal.stage deal) total_revenue
                        (snapshot_of d total_revenue))
                else
                  (fun dash =>
                     with_deal (Deal.stage deal) (revenue (cards dash)) dash)
                    <$> dashboard_snapshot (Some d) team owner_id
  | Raise e => create_deal (Some d) b = (Some d, Raise e)
  end.
Proof.
  unfold create_deal. destruct (Deal.validate b) as [deal|e]; [|done].
  eexists. split; [reflexivity|].
  assert (is_won (Deal.dump deal) = won_stage (Deal.stage deal)) as Hwon
    by reflexivity.
  assert (Deal.dump deal !! "value" = Some (VFloat (Deal.value deal))) as Hval
    by reflexivity.
  cbn [fst snd].
  assert (won_values
            (collection
               (<["deal" := collection d "deal"
                            ++ [(new_ObjectId (collection d "deal"),
                                 Deal.dump deal)]]> d) "deal")
          = won_values (collection d "deal")
            ++ (if won_stage (Deal.stage deal)
                then [VFloat (Deal.value deal)] else [])) as Hvalues.
  { rewrite collection_insert_eq, won_values_snoc. cbn [fst snd].
    by rewrite Hwon, Hval. }
  split; [exact Hvalues|].
  rewrite !dashboard_snapshot_eq, Hvalues.
  assert (∀ rev,
            snapshot_of
              (<["deal" := collection d "deal"
                           ++ [(new_ObjectId (collection d "deal"), Deal.dump deal)]]> d)
              rev
            = with_deal (Deal.stage deal) rev
                (snapshot_of d (revenue (cards (snapshot_of d rev))))) as Hsnap.
  { intros rev. unfold snapshot_of, with_deal. simpl.
    rewrite (collection_insert_ne _ "deal" "lead") by done.
    rewrite (collection_insert_ne _ "deal" "activity") by done.
    rewrite collection_insert_eq, group_by_stage_snoc, length_app. simpl.
    replace (field_or_null "stage" (Deal.dump deal))
      with (VStr (Deal.stage deal)) by reflexivity.
    replace (Z.of_nat (length (collection d "deal") + 1))
      with (Z.of_nat (length (collection d "deal")) + 1) by lia.
    reflexivity. }
  destruct (won_stage (Deal.stage deal)).
  - destruct (py_sum _) as [r|e]; simpl; [|reflexivity].
    by rewrite Hsnap.
  - rewrite app_nil_r.
    destruct (py_sum _) as [r|e]; simpl; [|reflexivity].
    by rewrite Hsnap.
Qed.


(** ** Listings *)

Ltac by_cases_on_filters :=
  unfold listing, get_documents, find, add_if, field_ok, has_str;
  repeat match goal with
         | |- context [match ?p with Some _ => _ | None => _ end] =>
             is_var p; destruct p
         | |- context [py_bool ?s] => destruct (py_bool s) eqn:?
         end;
  simpl; do 3 f_equal; apply filter_ext; intros [o doc]; simpl;
  rewrite ?andb_true_r; reflexivity.

(** X14: what the equality filters of the list handlers select.  Without a
    text to search for, leads are listed by [status] and deals by [stage];
    tasks are listed by [owner_id], whatever [due] is; activities are listed
    by [related_type] and [related_id] together.  A parameter left out or
    empty selects nothing away, and a field that is not a string never
    equals a parameter. *)
Theorem list_handlers_select_by_equality (d : Database)
    (status stage owner_id due related_type related_id : option string)
    (limit : Z) :
  list_leads (Some d) status None limit
  = listing d "lead" (field_ok "status" status) limit
  ∧ list_deals (Some d) stage None limit
    = listing d "deal" (field_ok "stage" stage) limit
  ∧ list_tasks (Some d) owner_id due limit
    = listing d "task" (field_ok "owner_id" owner_id) limit
  ∧ list_activities (Some d) related_type related_id limit
    = listing d "activity"
        (fun doc => field_ok "related_type" related_type doc
                    && field_ok "related_id" related_id doc) limit.
Proof.
  split; [|split; [|split]]; unfold list_leads, list_deals, list_tasks,
    list_activities; by_cases_on_filters.
Qed.

(** X15: the free-text parameter of a deal list is handed to the store as a
    regular expression, with the option that ignores letter case, on the
    title only: a deal is listed exactly when the pattern matches in its
    title and, where a stage is asked for as well, its stage is that one; a
    text that the store does not take as a pattern makes the request
    fail. *)
Theorem list_deals_plain_text_search (d : Database) (stage : option string)
    (q : string) (limit : Z) :
  q ≠ "" →
  match regex q "i" with
  | Some search =>
      list_deals (Some d) stage (Some q) limit
      = listing d "deal"
          (fun doc => field_ok "stage" stage doc && pattern_found search "title" doc)
          limit
      ∧ ∀ doc, pattern_found search "title" doc = true
               ↔ pattern_occurs search "title" doc
  | None => list_deals (Some d) stage (Some q) limit = Raise OperationFailure
  end.
Proof.
  intros Hq.
  assert (py_bool q = true) as Hb by (by destruct q).
  destruct (regex q "i") as [search|] eqn:Hs.
  - split; [|intros doc; apply pattern_found_spec].
    unfold list_deals, listing, get_documents, find, add_if. rewrite Hb.
    destruct stage as [s|]; [destruct (py_bool s) eqn:Hsb|];
      simpl; rewrite Hs; simpl; do 3 f_equal; apply filter_ext;
      intros [o doc]; unfold field_ok, has_str, pattern_found; simpl;
      rewrite ?Hsb; rewrite ?andb_true_r; reflexivity.
  - unfold list_deals, get_documents, find, add_if. rewrite Hb.
    destruct stage as [s|]; [destruct (py_bool s)|]; simpl; by rewrite Hs.
Qed.

(** X16: a text that the store's engine does not accept as a regular
    expression makes the lead list and the deal list raise, whatever the
    store holds. *)
Theorem list_raises_on_bad_pattern (d : Database) (status stage : option string)
    (q : string) (limit : Z) :
  q ≠ "" → regex q "i" = None →
  list_leads (Some d) status (Some q) limit = Raise OperationFailure
  ∧ list_deals (Some d) stage (Some q) limit = Raise OperationFailure.
Proof.
  intros Hq Hbad.
  assert (py_bool q = true) as Hb by (by destruct q).
  split.
  - unfold list_leads, get_documents, find, add_if. rewrite Hb.
    destruct status as [s|]; [destruct (py_bool s)|]; simpl; by rewrite Hbad.
  - unfold list_deals, get_documents, find, add_if. rewrite Hb.
    destruct stage as [s|]; [destruct (py_bool s)|]; simpl; by rewrite Hbad.
Qed.


(** ** The recent activities *)

Lemma project_lookup (fields : list string) (x : ObjectId * Doc) :
  "_id" ∉ fields →
  project fields x !! "_id" = Some (VOid x.1)
  ∧ (∀ k, k ∈ fields → project fields x !! k = x.2 !! k)
  ∧ (∀ k, k ≠ "_id" → k ∉ fields → project fields x !! k = None).
Proof.
  intros Hid. unfold project. split; [apply lookup_insert_eq|]. split.
  - intros k Hk. rewrite lookup_insert_ne by (intros <-; done).
    rewrite map_lookup_filter. destruct (x.2 !! k) as [v|]; simpl; [|done].
    rewrite option_guard_True; [done|]. simpl. by apply bool_decide_pack.
  - intros k Hne Hk. rewrite lookup_insert_ne by done.
    apply map_lookup_filter_None. right. intros v _ H. simpl in H.
    by apply bool_decide_unpack in H.
Qed.

Lemma insert_desc_perm (f : string) (x : ObjectId * Doc) (l : Collection) :
  insert_desc f x l ≡ₚ x :: l.
Proof.
  induction l as [|e l IH]; simpl; [reflexivity|].
  destruct (bson_compare _ _); try reflexivity.
  rewrite IH. apply perm_swap.
Qed.

Lemma sort_desc_perm (f : string) (c : Collection) : sort_desc f c ≡ₚ c.
Proof.
  induction c as [|x c IH]; simpl; [reflexivity|].
  rewrite insert_desc_perm. by rewrite IH.
Qed.

(** X17: the dashboard lists at most ten activities, and each listed entry
    is an activity of the store cut down to its identifier and the fields
    [subject], [type] and [created_at]. *)
Theorem recent_activities_projected (d : Database) (team owner_id : option string) :
  match dashboard_snapshot (Some d) team owner_id with
  | Ok dash =>
      length (recentActivities dash)
      = Nat.min 10 (length (collection d "activity"))
      ∧ ∀ r, r ∈ recentActivities dash →
             ∃ x, x ∈ collection d "activity"
                  ∧ r !! "_id" = Some (VOid x.1)
                  ∧ (∀ k, k ∈ activity_fields → r !! k = x.2 !! k)
                  ∧ (∀ k, k ≠ "_id" → k ∉ activity_fields → r !! k = None)
  | Raise e => e = TypeError
  end.
Proof.
  rewrite dashboard_snapshot_eq.
  pose proof (py_sum_numbers (won_values (collection d "deal"))) as H.
  destruct (forallb is_number _); [|by rewrite H].
  destruct H as (rev & -> & _). simpl. split.
  - rewrite length_map, length_take.
    by rewrite (Permutation_length (sort_desc_perm "created_at" _)).
  - intros r Hr. apply list_elem_of_In, in_map_iff in Hr as (x & <- & Hx).
    apply list_elem_of_In, subseteq_take in Hx.
    rewrite (sort_desc_perm "created_at") in Hx.
    exists x. split; [exact Hx|].
    apply project_lookup. unfold activity_fields.
    intros Hin. repeat (apply elem_of_cons in Hin as [Hin|Hin]; [discriminate|]).
    by apply elem_of_nil in Hin.
Qed.

Lemma dated_created_at (x : ObjectId * Doc) :
  dated x → ∃ t, created_at x = VDate t.
Proof. intros [t Ht]. exists t. unfold created_at, field_or_null. by rewrite Ht. Qed.

Lemma insert_desc_sorted (x : ObjectId * Doc) (l : Collection) :
  dated x → Forall dated l → StronglySorted not_older l →
  StronglySorted not_older (insert_desc "created_at" x l).
Proof.
  intros [tx Hx]%dated_created_at Hl Hs.
  induction l as [|e l IH]; simpl.
  - repeat constructor.
  - apply Forall_cons in Hl as [[te He]%dated_created_at Hl].
    apply StronglySorted_inv in Hs as [Hs He_l].
    fold (created_at x) (created_at e).
    destruct (bson_compare (created_at x) (created_at e)) eqn:E.
    + constructor; [by constructor|]. constructor; [unfold not_older; by rewrite E|].
      apply List.Forall_forall. intros r Hr.
      pose proof (proj1 (List.Forall_forall _ _) He_l r Hr) as Her.
      pose proof (proj1 (Forall_forall _ _) Hl r (proj2 (list_elem_of_In _ _) Hr))
        as [tr Hr']%dated_created_at.
      unfold not_older in *. rewrite Hx, He, Hr' in *. simpl in *.
      intros Hlt. apply Z.compare_eq in E. change (tx < tr) in Hlt.
      apply Her. change (te < tr). lia.
    + constructor; [by apply IH|].
      apply List.Forall_forall. intros r Hr.
      apply list_elem_of_In in Hr. rewrite insert_desc_perm in Hr.
      apply elem_of_cons in Hr as [->|Hr].
      * unfold not_older. rewrite Hx, He in *. simpl in *.
        intros Hlt. change (tx < te) in E. change (te < tx) in Hlt. lia.
      * apply (proj1 (List.Forall_forall _ _) He_l). by apply list_elem_of_In.
    + constructor; [by constructor|]. constructor; [unfold not_older; by rewrite E|].
      apply List.Forall_forall. intros r Hr.
      pose proof (proj1 (List.Forall_forall _ _) He_l r Hr) as Her.
      pose proof (proj1 (Forall_forall _ _) Hl r (proj2 (list_elem_of_In _ _) Hr))
        as [tr Hr']%dated_created_at.
      unfold not_older in *. rewrite Hx, He, Hr' in *. simpl in *.
      intros Hlt. apply Z.compare_gt_iff in E. change (tx < tr) in Hlt.
      apply Her. change (te < tr). lia.
Qed.

Lemma sort_desc_sorted (c : Collection) :
  Forall dated c → StronglySorted not_older (sort_desc "created_at" c).
Proof.
  induction c as [|x c IH]; simpl; [constructor|].
  intros [Hx Hc]%Forall_cons. apply insert_desc_sorted; [exact Hx| |by apply IH].
  by rewrite (sort_desc_perm "created_at").
Qed.

(** X18: when every activity carries a date in [created_at], the activities
    the dashboard lists are the first ten of the activities put in order of
    that date, latest first. *)
Theorem recent_activities_latest_first (d : Database)
    (team owner_id : option string) :
  Forall dated (collection d "activity") →
  match dashboard_snapshot (Some d) team owner_id with
  | Ok dash =>
      ∃ sorted, sorted ≡ₚ collection d "activity"
                ∧ StronglySorted not_older sorted
                ∧ recentActivities dash
                  = map (project activity_fields) (take 10 sorted)
  | Raise e => e = TypeError
  end.
Proof.
  intros Hdated. rewrite dashboard_snapshot_eq.
  pose proof (py_sum_numbers (won_values (collection d "deal"))) as H.
  destruct (forallb is_number _); [|by rewrite H].
  destruct H as (rev & -> & _). simpl.
  exists (sort_desc "created_at" (collection d "activity")).
  split; [apply sort_desc_perm|]. split; [by apply sort_desc_sorted|reflexivity].
Qed.



(** ** The diagnostic *)

(** X19: what the diagnostic reports.  The two [database_*] entries tell
    only whether the environment variables are set (an empty one counts as
    not set), never the name of the database; the connection is reported as
    "Connected" as soon as a handle exists, also when listing the
    collections raised, and then the first 50 characters of the exception's
    text are reported; at most the first ten collection names are listed,
    and none when there is no handle or the listing raised. *)
Theorem test_database_reports (db : option Handle)
    (DATABASE_URL DATABASE_NAME : option string) :
  let response := test_database db DATABASE_URL DATABASE_NAME in
  response !! "backend" = Some (JStr "✅ Running")
  ∧ response !! "database_url"
    = Some (JStr (if env_set DATABASE_URL then "✅ Set" else "❌ Not Set"))
  ∧ response !! "database_name"
    = Some (JStr (if env_set DATABASE_NAME then "✅ Set" else "❌ Not Set"))
  ∧ response !! "connection_status"
    = Some (JStr (if given db then "Connected" else "Not Connected"))
  ∧ response !! "collections"
    = Some (JNames match db with
                   | Some h =>
                       match list_collection_names h with
                       | inr names => take 10 names
                       | inl _ => []
                       end
                   | None => []
                   end)
  ∧ response !! "database"
    = Some (JStr match db with
                 | Some h =>
                     match list_collection_names h with
                     | inr _ => "✅ Connected & Working"
                     | inl e => "❌ Error: " ++ str_take 50 e
                     end
                 | None => "❌ Not Available"
                 end%string)
  ∧ dom response
    = list_to_set ["backend"; "database"; "database_url"; "database_name";
                   "connection_status"; "collections"].
Proof.
  unfold test_database.
  destruct db as [[name [e|names]]|]; cbn [given list_collection_names db_name];
    repeat split; vm_compute; reflexivity.
Qed.


End Handlers.

(** ** Doubles that hold whole numbers *)
























Lemma sum_le_magnitude (ns : list Z) : Z.abs (foldr Z.add 0 ns) <= magnitude ns.
Proof. induction ns as [|n ns IH]; simpl; lia. Qed.




(** ** The sample engine and the identifiers *)








(** ** The handlers on the sample data *)

(** The dashboard example of the specification: conversion rate 50.0,
    revenue 100, one deal won and one prospecting. *)
Lemma dashboard_example :
  dashboard_snapshot Rx.engine (sum_from_left 0) (Some example_db) None None
  = Ok {| cards := {| totalLeads := 2; totalDeals := 2;
                      revenue := VInt 100;
                      conversionRate := VFloat (Float.of_int 50) |};
          pipeline := [{| stage := VStr "won"; count := 1 |};
                       {| stage := VStr "prospecting"; count := 1 |}];
          recentActivities := [] |}.
Proof. vm_compute. reflexivity. Qed.

(** With no lead at all the rate is the integer 0. *)
Lemma dashboard_empty_store :
  conversionRate ∘ cards
    <$> dashboard_snapshot Rx.engine (sum_from_left 0) (Some ∅) None None
  = Ok (VInt 0).
Proof. vm_compute. reflexivity. Qed.

(** With 160 leads the rate can part from the exactly rounded ratio: 23 of
    160 is 14.375 exactly, which rounds to 14.38, and the doubles give
    14.37. *)
Lemma conversion_rate_23_of_160 :
  Z.of_nat (length (collection leads_160 "lead")) = 160
  ∧ count_where (has_str "status" "qualified") (collection leads_160 "lead") = 23
  ∧ conversionRate ∘ cards
      <$> dashboard_snapshot Rx.engine (sum_from_left 0) (Some leads_160) None None
    = Ok (VFloat (hundredths 1437))
  ∧ exact_rate_hundredths 23 160 = 1438
  ∧ hundredths 1437 ≠ hundredths 1438.
Proof.
  split; [vm_compute; reflexivity|]. split; [vm_compute; reflexivity|].
  split; [vm_compute; reflexivity|]. split; [vm_compute; reflexivity|].
  vm_compute. discriminate.
Qed.

(** A score of 150 is refused, a score of 100 is accepted. *)
Lemma create_lead_score_150 :
  create_lead Some (Some ∅) (lead_body "Ann" (Some 150))
  = (Some ∅, Raise (RequestValidationError [("score", "less_than_equal")])).
Proof. vm_compute. reflexivity. Qed.

Lemma create_lead_score_100 :
  (create_lead Some (Some ∅) (lead_body "Ann" (Some 100))).2
  = Ok (doc_of [("_id", VStr "000000000000000000000001")]).
Proof. vm_compute. reflexivity. Qed.

(** Without a store an update answers 500 before it looks at the
    identifier. *)
Lemma update_without_store :
  update_lead Rx.engine None "not-an-id" ∅
  = (None, Raise (HTTPException 500 "Database not configured")).
Proof. reflexivity. Qed.


(** The object a create handler answers has no key "id". *)
Lemma create_answers_under__id_not_id :
  ∃ answer, (create_deal (Some ∅) refund).2 = Ok answer
            ∧ answer !! "id" = None
            ∧ answer !! "_id" = Some (VStr "000000000000000000000001").
Proof.
  exists (doc_of [("_id", VStr "000000000000000000000001")]).
  repeat split; vm_compute; reflexivity.
Qed.

(** The lead named Bob is listed for [q = "b.b"], which occurs in none of
    its name, email and phone. *)
Lemma list_leads_q_is_a_pattern :
  list_leads Rx.engine (Some bob_db) None (Some "b.b") 50
  = Ok [<["_id" := VStr "000000000000000000000001"]> bob]
  ∧ bob !! "name" = Some (VStr "Bob")
  ∧ bob !! "email" = Some VNull
  ∧ bob !! "phone" = Some VNull
  ∧ ¬ occurs_ci "b.b" "Bob".
Proof.
  repeat split; try (vm_compute; reflexivity).
  intros H%contains_ci_spec. vm_compute in H. discriminate.
Qed.



(** An integer beyond eight bytes makes the driver raise before the store
    is asked, whether or not a document has the identifier. *)
Lemma update_with_oversized_integer :
  update_lead Rx.engine (Some bob_db) "000000000000000000000001"
    (doc_of [("score", VInt (2 ^ 63))])
  = (Some bob_db, Raise OverflowError)
  ∧ update_lead Rx.engine (Some bob_db) "000000000000000000000002"
      (doc_of [("score", VInt (2 ^ 63))])
    = (Some bob_db, Raise OverflowError).
Proof. split; vm_compute; reflexivity. Qed.

(** An integer beyond the range of a double is refused as a deal's value;
    the same integer with a minus sign as well. *)
Lemma deal_value_beyond_doubles :
  (create_deal (Some ∅) (Deal.with_value refund (Some (inl (- 2 ^ 1024))))).2
  = Raise (RequestValidationError [("value", "float_type")])
  ∧ is_ok (create_deal (Some ∅)
             (Deal.with_value refund (Some (inl (- (2 ^ 1024 - 2 ^ 970 - 1)))))).2
    = true.
Proof. split; vm_compute; reflexivity. Qed.

(** The address stored is the one the email check returns. *)
Lemma create_lead_normal_form :
  ∃ d', create_lead (fun s => Some (lower_str s)) (Some ∅)
          {| Lead.b_name := Some "Bob"; Lead.b_email := Some "Bob@EXAMPLE.COM";
             Lead.b_phone := None; Lead.b_status := None;
             Lead.b_source := None; Lead.b_owner_id := None;
             Lead.b_score := None; Lead.b_notes := None |}
        = (Some d', Ok (doc_of [("_id", VStr "000000000000000000000001")]))
        ∧ (fun x : ObjectId * Doc => x.2 !! "email") <$> collection d' "lead"
          = [Some (VStr "bob@example.com")].
Proof. eexists. split; vm_compute; reflexivity. Qed.

(** [s[:n]] counts characters, not bytes: the check mark is one character
    of three bytes. *)
Lemma str_take_characters :
  str_take 2 "✅ Running" = "✅ "
  ∧ String.length (str_take 2 "✅ Running") = 4%nat
  ∧ str_take 50 "short" = "short".
Proof. repeat split; vm_compute; reflexivity. Qed.




Lemma list_leads_plain_text_search_witness :
  ∃ search,
    Rx.engine "b.b" "i" = Some search
    ∧ list_leads Rx.engine (Some bob_db) (Some "new") (Some "b.b") 50
      = listing bob_db "lead"
          (fun doc =>
             status_ok (Some "new") doc
             && (pattern_found search "name" doc
                 || pattern_found search "email" doc
                 || pattern_found search "phone" doc)) 50.
Proof.
  pose proof (list_leads_plain_text_search Rx.engine bob_db (Some "new")
                "b.b" 50 ltac:(discriminate)) as H.
  destruct (Rx.engine "b.b" "i") as [search|] eqn:E;
    [|vm_compute in E; discriminate].
  exists search. split; [reflexivity|]. exact (proj1 H).
Defined.

Lemma update_keeps_identifiers_witness :
  ∃ d', (update_lead Rx.engine (Some bob_db) "000000000000000000000001"
           (doc_of [("score", VInt 150)])).1 = Some d'
        ∧ ∀ other, (collection d' other).*1 = (collection bob_db other).*1.
Proof.
  apply (update_keeps_identifiers Rx.engine "lead" (update_lead Rx.engine)
           bob_db "000000000000000000000001" (doc_of [("score", VInt 150)])).
  simpl. left. reflexivity.
Defined.



Lemma list_deals_plain_text_search_witness :
  ∃ search,
    Rx.engine "b.g" "i" = Some search
    ∧ list_deals Rx.engine (Some example_db) (Some "won") (Some "b.g") 50
      = listing example_db "deal"
          (fun doc =>
             field_ok "stage" (Some "won") doc
             && pattern_found search "title" doc) 50.
Proof.
  pose proof (list_deals_plain_text_search Rx.engine example_db (Some "won")
                "b.g" 50 ltac:(discriminate)) as H.
  destruct (Rx.engine "b.g" "i") as [search|] eqn:E;
    [|vm_compute in E; discriminate].
  exists search. split; [reflexivity|]. exact (proj1 H).
Defined.

Lemma list_raises_on_bad_pattern_witness :
  list_leads Rx.engine (Some bob_db) None (Some "(") 50 = Raise OperationFailure
  ∧ list_deals Rx.engine (Some bob_db) None (Some "(") 50 = Raise OperationFailure.
Proof.
  apply (list_raises_on_bad_pattern Rx.engine bob_db None None "(" 50).
  - discriminate.
  - reflexivity.
Defined.

Lemma recent_activities_latest_first_witness :
  match dashboard_snapshot Rx.engine (sum_from_left 0) (Some activity_db)
          None None with
  | Ok dash =>
      ∃ sorted, sorted ≡ₚ collection activity_db "activity"
                ∧ StronglySorted not_older sorted
                ∧ recentActivities dash
                  = map (project activity_fields) (take 10 sorted)
  | Raise e => e = TypeError
  end.
Proof.
  apply (recent_activities_latest_first Rx.engine (sum_from_left 0)
           activity_db None None).
  change (collection activity_db "activity")
    with [(1%N, doc_of [("subject", VStr "Call"); ("created_at", VDate 10)]);
          (2%N, doc_of [("subject", VStr "Mail"); ("created_at", VDate 30)]);
          (3%N, doc_of [("subject", VStr "Note"); ("created_at", VDate 20);
                        ("details", VStr "x")])].
  repeat constructor; [by exists 10|by exists 30|by exists 20].
Defined.

(** The activities of the sample store come out latest first. *)
Lemma recent_activities_example :
  (fun dash => map (fun r : Doc => r !! "subject") (recentActivities dash))
    <$> dashboard_snapshot Rx.engine (sum_from_left 0) (Some activity_db)
          None None
  = Ok [Some (VStr "Mail"); Some (VStr "Note"); Some (VStr "Call")].
Proof. vm_compute. reflexivity. Qed.

